(** * Akamai billing pipeline: rate limiter, readiness probe and collection

    Shallow embedding of [src/shared/akamai_client.py] (RateLimiter,
    extract_products) and [src/tasks/akamai_billing/main.py]
    (check_data_status, process_contract, collect_all and the guard of main). *)

From Stdlib Require Import String Ascii DecimalString DecimalZ DecimalPos.
From Stdlib Require Import List ZArith Lia Bool Permutation Arith.
Import ListNotations.
Open Scope list_scope.

(* ================================================================= *)
(** ** RateLimiter (akamai_client.py, lines 16-39) *)

Module RateLimiter.

(** [self.max_per_minute] and [self.request_times].  Timestamps are the
    readings of [time.time()], taken here as integers. *)
Record t := mk { max_per_minute : Z; request_times : list Z }.

(** [RateLimiter(max_per_minute)]: an empty window. *)
Definition init (max : Z) : t := mk max [].

(** What one pass through the [with self._lock:] block ends in: the
    [return] after appending, the computed [sleep_time] (the caller sleeps
    outside the lock and loops), or the [IndexError] raised by
    [self.request_times[0]] on an empty window. *)
Inductive outcome := Acquired | Sleep (sleep_time : Z) | IndexError.

(** [[t for t in self.request_times if now - t < 60]] *)
Definition prune (now : Z) (ts : list Z) : list Z :=
  filter (fun x => now - x <? 60)%Z ts.

(** One critical section of [acquire], with [now = time.time()] read
    under the lock.  The pruned list is stored before the test, so it is
    kept on every branch. *)
Definition attempt (rl : t) (now : Z) : outcome * t :=
  let ts := prune now (request_times rl) in
  if (Z.of_nat (length ts) <? max_per_minute rl)%Z
  then (Acquired, mk (max_per_minute rl) (ts ++ [now]))
  else match ts with
       | [] => (IndexError, mk (max_per_minute rl) ts)
       | t0 :: _ => (Sleep (60 - (now - t0))%Z, mk (max_per_minute rl) ts)
       end.

(** Any number of threads calling [acquire]: the lock serialises their
    critical sections, and sleeping happens outside it, so every run is a
    sequence of [attempt]s in lock order, each with the clock reading taken
    inside it.  [run] returns the admitted timestamps (appended to
    [admitted]) and the final limiter. *)
Fixpoint run (rl : t) (admitted : list Z) (nows : list Z) : list Z * t :=
  match nows with
  | [] => (admitted, rl)
  | now :: rest =>
      match attempt rl now with
      | (Acquired, rl') => run rl' (admitted ++ [now]) rest
      | (_, rl') => run rl' admitted rest
      end
  end.

(** Clock readings that never go backwards. *)
Fixpoint nondecreasing (l : list Z) : bool :=
  match l with
  | x :: ((y :: _) as r) => (x <=? y)%Z && nondecreasing r
  | _ => true
  end.

(** The 60-second window [[a, a + 60)]. *)
Definition in_window (a x : Z) : bool := (a <=? x)%Z && (x <? a + 60)%Z.

(** Each admitted timestamp had fewer than [N] earlier admitted timestamps
    less than 60 seconds before it. *)
Definition admissions_ok (N : Z) (adm : list Z) : Prop :=
  forall pre x post, adm = pre ++ x :: post ->
    (Z.of_nat (length (filter (fun y => x - y <? 60)%Z pre)) < N)%Z.

End RateLimiter.

(* ================================================================= *)
(** ** Python values used by the pipeline *)

(** A Python call either returns a value or raises; a raised exception is
    kept as its [str(e)], which is what [collect_all] records. *)
Inductive res (A : Type) : Type :=
| Ok (a : A)
| Raise (e : string).
Arguments Ok {A} a.
Arguments Raise {A} e.

Definition res_bind {A B} (m : res A) (k : A -> res B) : res B :=
  match m with
  | Ok a => k a
  | Raise e => Raise e
  end.

Notation "'let*' x ':=' m 'in' k" := (res_bind m (fun x => k))
  (at level 200, x name, m at level 100, k at level 200).

(** Truthiness of a [str] and of an [Optional[str]]: [None] and [""] are
    false.  [truthy_id] returns the string when it is truthy. *)
Definition truthy_str (s : string) : bool := negb (String.eqb s "").

Definition truthy_id (o : option string) : option string :=
  match o with
  | Some s => if truthy_str s then Some s else None
  | None => None
  end.

(** Python [dict] with [str] keys, in insertion order: [d[k] = v] replaces
    the value of an existing key in place and appends a new key. *)
Module PyDict.

Definition dict (V : Type) := list (string * V).

Fixpoint get {V} (k : string) (d : dict V) : option V :=
  match d with
  | [] => None
  | (k', v) :: d' => if String.eqb k k' then Some v else get k d'
  end.

Definition get_default {V} (k : string) (d : dict V) (dflt : V) : V :=
  match get k d with Some v => v | None => dflt end.

Fixpoint set {V} (k : string) (v : V) (d : dict V) : dict V :=
  match d with
  | [] => [(k, v)]
  | (k', v') :: d' => if String.eqb k k' then (k, v) :: d' else (k', v') :: set k v d'
  end.

(** [d.update(m)]: the items of [m] assigned in order. *)
Definition update {V} (d m : dict V) : dict V :=
  fold_left (fun acc kv => set (fst kv) (snd kv) acc) m d.

Definition keys {V} (d : dict V) : list string := map fst d.

End PyDict.

Abbreviation dict := PyDict.dict.

(* ================================================================= *)
(** ** Akamai API payloads and client (akamai_client.py) *)

Module Akamai.

(** The JSON objects the pipeline reads, with the fields it reads.  A
    field read with [.get(k)] or [.get(k, default)] is [None] when the key is
    absent. *)
Record reporting_group := mk_reporting_group {
  reportingGroupId : option string;
  reportingGroupName : option string }.

Record product := mk_product {
  productId : option string;
  productName : option string;
  reportingGroups : option (list reporting_group) }.

Record usage_period := mk_usage_period {
  usageProducts : option (list product) }.

(** Response of [get_products]: the keys ["products"] and ["usagePeriods"]
    and the names of any other keys. *)
Record listing := mk_listing {
  products_key : option (list product);
  usagePeriods_key : option (list usage_period);
  listing_other_keys : list string }.

(** Response of the usage queries: ["dataStatus"] and the other keys. *)
Record usage := mk_usage {
  dataStatus : option string;
  usage_other_keys : list string }.

(** [not d] for a dict is [len(d) == 0]. *)
Definition listing_truthy (d : listing) : bool :=
  match products_key d, usagePeriods_key d, listing_other_keys d with
  | None, None, [] => false
  | _, _, _ => true
  end.

Definition usage_truthy (d : usage) : bool :=
  match dataStatus d, usage_other_keys d with
  | None, [] => false
  | _, _ => true
  end.

(** The client as main.py uses it: each call returns the pair
    [(data, error_message)] ([None] for a missing side), or raises. *)
Record client := mk_client {
  get_products : string -> string -> string -> string ->
                 res (option listing * option string);
  get_product_usage : string -> string -> option string -> string ->
                      res (option usage * option string);
  get_reporting_group_usage : string -> string -> string -> string ->
                              res (option usage * option string) }.

(** [extract_products] (lines 110-121). *)
Definition extract_products (products_data : listing) : list product :=
  match products_key products_data with
  | Some products => products
  | None =>
      match usagePeriods_key products_data with
      | Some periods =>
          flat_map (fun period =>
                      match usageProducts period with
                      | Some usage_products => usage_products
                      | None => []
                      end) periods
      | None => []
      end
  end.

End Akamai.

(* ================================================================= *)
(** ** Billing pipeline (tasks/akamai_billing/main.py) *)

Module Billing.
Import Akamai.

Definition RATE_LIMIT_PER_MINUTE : Z := 100.

(** [rate_limiter.acquire()] as seen by its caller: with a positive limit
    it returns once a slot is free (only the timing depends on the window);
    with a limit [<= 0] its first pass raises the [IndexError] of
    [self.request_times[0]] on the empty window
    ([RateLimiterFacts.attempt_init_nonpositive]). *)
Definition acquire (limit : Z) : res unit :=
  if (0 <? limit)%Z then Ok tt else Raise "list index out of range".

(** A Unit: one entry of [fetch_akamai_contracts]. *)
Record contract := mk_contract {
  contract_id : string;
  account_id : string;
  company_name : string }.

Record product_usage_rec := mk_pu {
  pu_contractId : string;
  pu_accountId : string;
  pu_companyName : string;
  pu_productId : string;
  pu_productName : string;
  pu_data : usage }.

Record rg_usage_rec := mk_rgu {
  rgu_contractId : string;
  rgu_accountId : string;
  rgu_companyName : string;
  rgu_productId : string;
  rgu_productName : string;
  rgu_reportingGroupId : string;
  rgu_reportingGroupName : string;
  rgu_data : usage }.

(** The [result] dict of [process_contract]; [r_products = None] is the
    initial [{}], [r_error = None] an absent ["error"] key. *)
Record unit_result := mk_result {
  r_contract_id : string;
  r_account_id : string;
  r_company_name : string;
  r_success : bool;
  r_products : option listing;
  r_product_usage : dict product_usage_rec;
  r_reporting_group_usage : dict rg_usage_rec;
  r_error : option string }.

Definition product_key (contract_id product_id : string) : string :=
  (contract_id ++ "_" ++ product_id)%string.

Definition reporting_group_key (contract_id product_id rg_id : string) : string :=
  (contract_id ++ "_" ++ product_id ++ "_" ++ rg_id)%string.

Definition opt_default (dflt : string) (o : option string) : string :=
  match o with Some s => s | None => dflt end.

(** [for rg in product.get("reportingGroups", [])] (lines 210-230). *)
Fixpoint rg_loop (cl : client) (limit : Z) (u : contract)
    (product_id product_name month : string) (rgs : list reporting_group)
    (acc : dict rg_usage_rec) : res (dict rg_usage_rec) :=
  match rgs with
  | [] => Ok acc
  | rg :: rest =>
      let rg_name := opt_default "Unknown" (reportingGroupName rg) in
      match truthy_id (reportingGroupId rg) with
      | None => rg_loop cl limit u product_id product_name month rest acc
      | Some rg_id =>
          let* _ := acquire limit in
          let* resp := get_reporting_group_usage cl (account_id u) rg_id product_id month in
          let acc' :=
            match fst resp with
            | Some rg_data =>
                if usage_truthy rg_data then
                  PyDict.set (reporting_group_key (contract_id u) product_id rg_id)
                    (mk_rgu (contract_id u) (account_id u) (company_name u)
                       product_id product_name rg_id rg_name rg_data) acc
                else acc
            | None => acc
            end in
          rg_loop cl limit u product_id product_name month rest acc'
      end
  end.

(** [for product in products] (lines 190-230). *)
Fixpoint product_loop (cl : client) (limit : Z) (u : contract) (month : string)
    (products : list product) (pu : dict product_usage_rec)
    (rgu : dict rg_usage_rec) : res (dict product_usage_rec * dict rg_usage_rec) :=
  match products with
  | [] => Ok (pu, rgu)
  | p :: rest =>
      let product_name := opt_default "Unknown" (productName p) in
      match truthy_id (productId p) with
      | None => product_loop cl limit u month rest pu rgu
      | Some product_id =>
          let* _ := acquire limit in
          let* resp := get_product_usage cl (contract_id u) (account_id u) (Some product_id) month in
          let pu' :=
            match fst resp with
            | Some usage_data =>
                if usage_truthy usage_data then
                  PyDict.set (product_key (contract_id u) product_id)
                    (mk_pu (contract_id u) (account_id u) (company_name u)
                       product_id product_name usage_data) pu
                else pu
            | None => pu
            end in
          let* rgu' := rg_loop cl limit u product_id product_name month
                    (match reportingGroups p with Some l => l | None => [] end) rgu in
          product_loop cl limit u month rest pu' rgu'
      end
  end.

Definition LISTING_FAILED (error : string) : string :=
  ("Product 목록 조회 실패: " ++ error)%string.
Definition NO_PRODUCT_DATA : string := "Product 데이터 없음".
Definition NO_PRODUCT_IN_USE : string := "사용 중인 Product 없음".

(** [process_contract] (lines 147-233). *)
Definition process_contract (cl : client) (limit : Z) (u : contract)
    (month next_month : string) : res unit_result :=
  let fail msg := mk_result (contract_id u) (account_id u) (company_name u)
                    false None [] [] (Some msg) in
  let* _ := acquire limit in
  let* resp := get_products cl (contract_id u) (account_id u) month next_month in
  let '(products_data, error) := resp in
  match truthy_id error with
  | Some e => Ok (fail (LISTING_FAILED e))
  | None =>
      match products_data with
      | None => Ok (fail NO_PRODUCT_DATA)
      | Some pd =>
          if negb (listing_truthy pd) then Ok (fail NO_PRODUCT_DATA) else
          match extract_products pd with
          | [] => Ok (mk_result (contract_id u) (account_id u) (company_name u)
                        true (Some pd) [] [] (Some NO_PRODUCT_IN_USE))
          | products =>
              let* maps := product_loop cl limit u month products [] [] in
              Ok (mk_result (contract_id u) (account_id u) (company_name u)
                    true (Some pd) (fst maps) (snd maps) None)
          end
      end
  end.

(** The accumulators of [collect_all]. *)
Record product_entry := mk_product_entry {
  pe_accountId : string;
  pe_companyName : string;
  pe_data : listing }.

Record failure := mk_failure {
  f_contract_id : string;
  f_company_name : string;
  f_reason : option string }.

Record aggregate := mk_aggregate {
  all_products : dict product_entry;
  all_product_usage : dict product_usage_rec;
  all_rg_usage : dict rg_usage_rec;
  success_count : nat;
  failed : list failure }.

Definition empty_aggregate : aggregate := mk_aggregate [] [] [] 0 [].

(** The body of [for idx, future in enumerate(as_completed(futures), 1)]
    (lines 261-289) for one completed future: the contract it was submitted
    for and what [future.result()] returned or raised. *)
Definition collect_step (ag : aggregate) (completed : contract * res unit_result) : aggregate :=
  let '(c, outcome) := completed in
  match outcome with
  | Ok result =>
      if r_success result then
        mk_aggregate
          (match r_products result with
           | Some pd =>
               if listing_truthy pd then
                 PyDict.set (r_contract_id result)
                   (mk_product_entry (r_account_id result) (r_company_name result) pd)
                   (all_products ag)
               else all_products ag
           | None => all_products ag
           end)
          (PyDict.update (all_product_usage ag) (r_product_usage result))
          (PyDict.update (all_rg_usage ag) (r_reporting_group_usage result))
          (S (success_count ag))
          (failed ag)
      else
        mk_aggregate (all_products ag) (all_product_usage ag) (all_rg_usage ag)
          (success_count ag)
          (failed ag ++ [mk_failure (r_contract_id result) (r_company_name result)
                                    (r_error result)])
  | Raise e =>
      mk_aggregate (all_products ag) (all_product_usage ag) (all_rg_usage ag)
        (success_count ag)
        (failed ag ++ [mk_failure (contract_id c) (company_name c) (Some e)])
  end.

(** [collect_all] with the futures completing in the order [completion]:
    every worker runs [process_contract] with the shared limiter of
    [RATE_LIMIT_PER_MINUTE]. *)
Definition collect_in_order (cl : client) (month next_month : string)
    (completion : list contract) : aggregate :=
  fold_left collect_step
    (map (fun c => (c, process_contract cl RATE_LIMIT_PER_MINUTE c month next_month))
         completion)
    empty_aggregate.

(** [collect_all(client, contracts, ...)] may return [ag]: [as_completed]
    yields each submitted future once, in an order fixed by the scheduler. *)
Definition collect_all (cl : client) (contracts : list contract)
    (month next_month : string) (ag : aggregate) : Prop :=
  exists completion, Permutation contracts completion /\
                     ag = collect_in_order cl month next_month completion.

(** What one completed future adds to each accumulator of [collect_step]. *)
Definition products_contrib (completed : contract * res unit_result) : dict product_entry :=
  match snd completed with
  | Ok r =>
      if r_success r then
        match r_products r with
        | Some pd =>
            if listing_truthy pd
            then [(r_contract_id r, mk_product_entry (r_account_id r) (r_company_name r) pd)]
            else []
        | None => []
        end
      else []
  | Raise _ => []
  end.

Definition usage_contrib (completed : contract * res unit_result) : dict product_usage_rec :=
  match snd completed with
  | Ok r => if r_success r then r_product_usage r else []
  | Raise _ => []
  end.

Definition rg_contrib (completed : contract * res unit_result) : dict rg_usage_rec :=
  match snd completed with
  | Ok r => if r_success r then r_reporting_group_usage r else []
  | Raise _ => []
  end.

Definition success_contrib (completed : contract * res unit_result) : nat :=
  match snd completed with
  | Ok r => if r_success r then 1 else 0
  | Raise _ => 0
  end.

Definition failure_contrib (completed : contract * res unit_result) : list failure :=
  match completed with
  | (_, Ok r) =>
      if r_success r then []
      else [mk_failure (r_contract_id r) (r_company_name r) (r_error r)]
  | (c, Raise e) => [mk_failure (contract_id c) (company_name c) (Some e)]
  end.

(** The leaves of one Unit's traversal when no call raises: the record a
    product's usage query adds, and those its reporting groups add. *)
Definition pu_leaf (cl : client) (u : contract) (month : string) (p : product)
    : dict product_usage_rec :=
  match truthy_id (productId p) with
  | None => []
  | Some product_id =>
      match get_product_usage cl (contract_id u) (account_id u) (Some product_id) month with
      | Ok (Some usage_data, _) =>
          if usage_truthy usage_data then
            [(product_key (contract_id u) product_id,
              mk_pu (contract_id u) (account_id u) (company_name u) product_id
                (opt_default "Unknown" (productName p)) usage_data)]
          else []
      | _ => []
      end
  end.

Definition rg_leaf (cl : client) (u : contract) (month product_id product_name : string)
    (rg : reporting_group) : dict rg_usage_rec :=
  match truthy_id (reportingGroupId rg) with
  | None => []
  | Some rg_id =>
      match get_reporting_group_usage cl (account_id u) rg_id product_id month with
      | Ok (Some rg_data, _) =>
          if usage_truthy rg_data then
            [(reporting_group_key (contract_id u) product_id rg_id,
              mk_rgu (contract_id u) (account_id u) (company_name u) product_id
                product_name rg_id (opt_default "Unknown" (reportingGroupName rg)) rg_data)]
          else []
      | _ => []
      end
  end.

Definition rg_leaves (cl : client) (u : contract) (month : string) (p : product)
    : dict rg_usage_rec :=
  match truthy_id (productId p) with
  | None => []
  | Some product_id =>
      flat_map (rg_leaf cl u month product_id (opt_default "Unknown" (productName p)))
        (match reportingGroups p with Some l => l | None => [] end)
  end.

(** No call about Unit [u] raises (the client's [_make_request] turns every
    failure into [(None, message)]). *)
Definition leaf_calls_return (cl : client) (u : contract) (month : string) : Prop :=
  (forall product_id, exists v,
     get_product_usage cl (contract_id u) (account_id u) (Some product_id) month = Ok v) /\
  (forall rg_id product_id, exists v,
     get_reporting_group_usage cl (account_id u) rg_id product_id month = Ok v).

(** Every key of [d] is [owner_id ++ "_" ++ ...], and no key repeats. *)
Definition owned_keys {V} (owner_id : string) (d : dict V) : Prop :=
  NoDup (PyDict.keys d) /\
  forall k, In k (PyDict.keys d) -> exists x, k = (owner_id ++ "_" ++ x)%string.

(** A string with no ['_']. *)
Fixpoint no_underscore (s : string) : bool :=
  match s with
  | EmptyString => true
  | String ch s' => negb (Ascii.eqb ch "_"%char) && no_underscore s'
  end.

(** [n // sample_count] on non-negative ints. *)
Definition floordiv (a b : nat) : res nat :=
  if Nat.eqb b 0 then Raise "integer division or modulo by zero" else Ok (a / b).

(** [l[i]] for [i >= 0]. *)
Definition py_index {A} (l : list A) (i : nat) : res A :=
  match nth_error l i with
  | Some x => Ok x
  | None => Raise "list index out of range"
  end.

Fixpoint map_res {A B} (f : A -> res B) (l : list A) : res (list B) :=
  match l with
  | [] => Ok []
  | x :: l' => let* y := f x in let* ys := map_res f l' in Ok (y :: ys)
  end.

(** Sample selection of [check_data_status] (lines 95-98). *)
Definition select_samples {A} (contracts : list A) : res (list A) :=
  let n := length contracts in
  let sample_count := Nat.min 5 n in
  let* q := floordiv n sample_count in
  let step := Nat.max 1 q in
  map_res (fun i => py_index contracts (i * step)) (seq 0 sample_count).

(** The probing loop of [check_data_status] (lines 103-133), returning the
    [statuses] histogram. *)
Fixpoint probe_samples (cl : client) (limit : Z) (month next_month : string)
    (samples : list contract) (statuses : dict Z) : res (dict Z) :=
  match samples with
  | [] => Ok statuses
  | c :: rest =>
      let* _ := acquire limit in
      let* resp := get_products cl (contract_id c) (account_id c) month next_month in
      let '(products_data, err) := resp in
      match truthy_id err, products_data with
      | None, Some pd =>
          if negb (listing_truthy pd) then probe_samples cl limit month next_month rest statuses else
          match extract_products pd with
          | [] => probe_samples cl limit month next_month rest statuses
          | first_product :: _ =>
              let* _ := acquire limit in
              let* uresp := get_product_usage cl (contract_id c) (account_id c)
                         (productId first_product) month in
              let '(usage_data, usage_err) := uresp in
              match truthy_id usage_err, usage_data with
              | None, Some d =>
                  if negb (usage_truthy d) then probe_samples cl limit month next_month rest statuses else
                  let status := opt_default "UNKNOWN" (dataStatus d) in
                  probe_samples cl limit month next_month rest
                    (PyDict.set status (PyDict.get_default status statuses 0 + 1)%Z statuses)
              | _, _ => probe_samples cl limit month next_month rest statuses
              end
          end
      | _, _ => probe_samples cl limit month next_month rest statuses
      end
  end.

(** One iteration of that loop, as the status it adds to the histogram
    ([None] for the [continue] branches). *)
Definition sample_status (cl : client) (limit : Z) (month next_month : string)
    (c : contract) : res (option string) :=
  let* _ := acquire limit in
  let* resp := get_products cl (contract_id c) (account_id c) month next_month in
  let '(products_data, err) := resp in
  match truthy_id err, products_data with
  | None, Some pd =>
      if negb (listing_truthy pd) then Ok None else
      match extract_products pd with
      | [] => Ok None
      | first_product :: _ =>
          let* _ := acquire limit in
          let* uresp := get_product_usage cl (contract_id c) (account_id c)
                          (productId first_product) month in
          let '(usage_data, usage_err) := uresp in
          match truthy_id usage_err, usage_data with
          | None, Some d =>
              if negb (usage_truthy d) then Ok None else
              Ok (Some (opt_default "UNKNOWN" (dataStatus d)))
          | _, _ => Ok None
          end
      end
  | _, _ => Ok None
  end.

(** The statuses observed over the samples, in order. *)
Fixpoint observed_statuses (cl : client) (limit : Z) (month next_month : string)
    (samples : list contract) : res (list string) :=
  match samples with
  | [] => Ok []
  | c :: rest =>
      let* o := sample_status cl limit month next_month c in
      let* obs := observed_statuses cl limit month next_month rest in
      Ok (match o with Some status => status :: obs | None => obs end)
  end.

(** [statuses[status] = statuses.get(status, 0) + 1] *)
Definition tally (statuses : dict Z) (status : string) : dict Z :=
  PyDict.set status (PyDict.get_default status statuses 0 + 1)%Z statuses.

(** The verdict (lines 135-136). *)
Definition is_ready (statuses : dict Z) : bool :=
  let collecting := PyDict.get_default "COLLECTING_DATA" statuses 0%Z in
  (collecting =? 0)%Z && (0 <? length statuses).

(** [check_data_status]: the verdict and the histogram (the report text is
    formatting of these two and of per-sample detail lines). *)
Definition check_data_status (cl : client) (limit : Z) (contracts : list contract)
    (month next_month : string) : res (bool * dict Z) :=
  let* samples := select_samples contracts in
  let* statuses := probe_samples cl limit month next_month samples [] in
  Ok (is_ready statuses, statuses).

(** [main] up to the status check (lines 488-507): an empty contract list
    ends the run before the probe. *)
Inductive main_stage :=
| ContractsEmpty
| StatusChecked (r : res (bool * dict Z)).

Definition main_status_stage (cl : client) (contracts : list contract)
    (month next_month : string) : main_stage :=
  match contracts with
  | [] => ContractsEmpty
  | _ => StatusChecked (check_data_status cl RATE_LIMIT_PER_MINUTE contracts month next_month)
  end.

End Billing.

(* ================================================================= *)
(** ** Concrete runs *)

(** Clients with canned answers, standing for the API on fixed inputs. *)
Module Scenarios.
Import Akamai Billing.
Local Open Scope string_scope.

Definition billing_month : string := "2026-09".
Definition next_billing_month : string := "2026-10".

Definition unit_of (cid : string) : contract :=
  mk_contract cid ("acct-" ++ cid)%string ("Company " ++ cid)%string.

Definition plain_product (pid : string) : product := mk_product (Some pid) (Some pid) None.

Definition complete_usage : usage := mk_usage (Some "COMPLETE") [].

Definition products_listing (ps : list product) : listing := mk_listing (Some ps) None [].

(** A client whose listing for a contract id is [listing_for cid] and whose
    usage query for [(cid, pid)] is [usage_for cid pid]; reporting-group
    queries all answer [(None, "404 ...")]. *)
Definition scenario_client
    (listing_for : string -> option listing * option string)
    (usage_for : string -> string -> option usage * option string) : client :=
  mk_client
    (fun cid _ _ _ => Ok (listing_for cid))
    (fun cid _ pid _ => Ok (usage_for cid (opt_default "" pid)))
    (fun _ _ _ _ => Ok (None, Some "404 - not found")).

Definition usage_ok (cid pid : string) : option usage * option string :=
  (Some complete_usage, None).

(** Every listing is [{"products": []}]. *)
Definition empty_products_client : client :=
  scenario_client (fun _ => (Some (products_listing []), None)) usage_ok.

(** The listing is [{"usagePeriods": [...]}] with product [P1] in two
    periods. *)
Definition two_periods_listing : listing :=
  mk_listing None
    (Some [mk_usage_period (Some [plain_product "P1"]);
           mk_usage_period (Some [plain_product "P1"])]) [].

Definition two_periods_client : client :=
  scenario_client (fun _ => (Some two_periods_listing, None)) usage_ok.

(** Three SubUnits; the usage query of the second one fails. *)
Definition three_products_listing : listing :=
  products_listing [plain_product "P1"; plain_product "P2"; plain_product "P3"].

Definition second_fails_client : client :=
  scenario_client (fun _ => (Some three_products_listing, None))
    (fun _ pid => if String.eqb pid "P2" then (None, Some "500 - Internal Server Error")
                  else (Some complete_usage, None)).

(** Contract ["A_B"] with product ["C"] and contract ["A"] with product
    ["B_C"]: both composite keys are ["A_B_C"]. *)
Definition collision_listing (cid : string) : option listing * option string :=
  if String.eqb cid "A_B" then (Some (products_listing [plain_product "C"; plain_product "D"]), None)
  else if String.eqb cid "A" then (Some (products_listing [plain_product "B_C"; plain_product "E"]), None)
  else (Some (products_listing [plain_product "P1"; plain_product "P2"]), None).

Definition collision_client : client := scenario_client collision_listing usage_ok.

(** Every Unit lists [P1] and [P2]. *)
Definition two_products_client : client :=
  scenario_client (fun _ => (Some (products_listing [plain_product "P1"; plain_product "P2"])
                             , None)) usage_ok.

Definition ten_units : list contract :=
  map unit_of ["U0"; "U1"; "U2"; "U3"; "U4"; "U5"; "U6"; "U7"; "U8"; "U9"]%string.

Definition ten_units_with_collision : list contract :=
  map unit_of ["U0"; "U1"; "U2"; "U3"; "U4"; "U5"; "U6"; "U7"; "A_B"; "A"]%string.

Definition pair_units : list contract := [unit_of "1-A"; unit_of "1-B"].

(** Distinctness of a concrete list of strings. *)
Ltac solve_nodup :=
  cbn;
  repeat (apply NoDup_cons;
          [cbn; intros Hin; repeat (destruct Hin as [Hin|Hin]; [discriminate Hin|]); exact Hin|]);
  apply NoDup_nil.

End Scenarios.

(* ================================================================= *)
(** ** Billing month and next month (tasks/akamai_billing/main.py) *)

Module Months.
Local Open Scope string_scope.

(** [f"{z}"] for an [int]. *)
Definition str_of_Z (z : Z) : string := NilZero.string_of_int (Z.to_int z).

(** [f"{n:02d}"]: zero-padded to two characters; a negative number is
    already two characters wide (the sign and a digit). *)
Definition format_02d (n : Z) : string :=
  if (n <? 0)%Z then str_of_Z n
  else if (n <? 10)%Z then "0" ++ str_of_Z n else str_of_Z n.

(** [get_billing_month] (lines 32-41).  [env_month] is
    [os.environ.get("BILLING_MONTH", "").strip()]; [now_year] and
    [now_month] are the fields of [datetime.now()]. *)
Definition get_billing_month (env_month : string) (now_year now_month : Z) : string :=
  if truthy_str env_month then env_month
  else if (now_month =? 1)%Z then str_of_Z (now_year - 1) ++ "-12"
  else str_of_Z now_year ++ "-" ++ format_02d (now_month - 1).

(** [s.split(sep)] for a one-character separator. *)
Fixpoint split_on (sep : ascii) (s : string) : list string :=
  match s with
  | EmptyString => [EmptyString]
  | String c s' =>
      let pieces := split_on sep s' in
      if Ascii.eqb c sep then EmptyString :: pieces
      else match pieces with
           | [] => [String c EmptyString]
           | w :: ws => String c w :: ws
           end
  end.

(** Lines 460-461 of [main]: [year, mon = billing_month.split("-")], then
    [f"{year}-{int(mon)+1:02d}" if int(mon) < 12 else f"{int(year)+1}-01"].
    [py_int] is [int] applied to a [str]. *)
Definition next_month (py_int : string -> res Z) (billing_month : string) : res string :=
  match split_on "-"%char billing_month with
  | [year; mon] =>
      let* m := py_int mon in
      if (m <? 12)%Z then Ok (year ++ "-" ++ format_02d (m + 1))
      else let* y := py_int year in Ok (str_of_Z (y + 1) ++ "-01")
  | [] => Raise "not enough values to unpack (expected 2, got 0)"
  | [_] => Raise "not enough values to unpack (expected 2, got 1)"
  | _ => Raise "too many values to unpack (expected 2)"
  end.

(** What [int] does on a non-empty string of ASCII digits: its decimal value,
    leading zeros allowed. *)
Definition int_on_digits (py_int : string -> res Z) : Prop :=
  forall s d, NilZero.uint_of_string s = Some d -> py_int s = Ok (Z.of_uint d).

(** [int] on ASCII-digit strings, raising on anything else: one function
    with the property above. *)
Definition int_of_ascii_digits (s : string) : res Z :=
  match NilZero.uint_of_string s with
  | Some d => Ok (Z.of_uint d)
  | None => Raise ("invalid literal for int() with base 10: '" ++ s ++ "'")
  end.

(** The number of occurrences of a character. *)
Fixpoint count_char (ch : ascii) (s : string) : nat :=
  match s with
  | EmptyString => 0
  | String c s' => (if Ascii.eqb c ch then 1 else 0) + count_char ch s'
  end.

End Months.

(* ================================================================= *)
(** ** JSON values as the code reads them *)

Module Json.
Local Open Scope string_scope.

(** A value of [response.json()].  Numbers are only copied or tested for
    truth below, so integers stand for all of them.  An object is a Python
    [dict]: its keys are distinct. *)
#[warnings="-register-all"]
Inductive json :=
| JNull
| JBool (b : bool)
| JNum (n : Z)
| JStr (s : string)
| JArr (items : list json)
| JObj (fields : list (string * json)).

Definition type_name (j : json) : string :=
  match j with
  | JNull => "NoneType"
  | JBool _ => "bool"
  | JNum _ => "int"
  | JStr _ => "str"
  | JArr _ => "list"
  | JObj _ => "dict"
  end.

(** [bool(j)]. *)
Definition truthy (j : json) : bool :=
  match j with
  | JNull => false
  | JBool b => b
  | JNum n => negb (n =? 0)%Z
  | JStr s => truthy_str s
  | JArr items => match items with [] => false | _ => true end
  | JObj fields => match fields with [] => false | _ => true end
  end.

(** [o.get(k, default)]: only a [dict] has [.get]. *)
Definition py_get (o : json) (k : string) (default : json) : res json :=
  match o with
  | JObj fields => Ok (PyDict.get_default k fields default)
  | _ => Raise ("'" ++ type_name o ++ "' object has no attribute 'get'")
  end.

(** The items of [for x in o]: a list's elements, a dict's keys, a string's
    characters. *)
Definition py_iter (o : json) : res (list json) :=
  match o with
  | JArr items => Ok items
  | JObj fields => Ok (map (fun kv => JStr (fst kv)) fields)
  | JStr s => Ok (map (fun c => JStr (String c EmptyString)) (list_ascii_of_string s))
  | _ => Raise ("'" ++ type_name o ++ "' object is not iterable")
  end.

(** A loop that appends the rows of each item in turn, stopping at the
    first exception. *)
Fixpoint flat_map_res {A B} (f : A -> res (list B)) (l : list A) : res (list B) :=
  match l with
  | [] => Ok []
  | x :: l' => let* ys := f x in let* zs := flat_map_res f l' in Ok (ys ++ zs)%list
  end.

End Json.

(* ================================================================= *)
(** ** Contract list (fetch_akamai_contracts, main.py lines 46-76) *)

Module Fetch.
Import Json.
Local Open Scope string_scope.

(** One entry of the returned list. *)
Record hb_contract := mk_hb_contract {
  hb_contract_id : json;
  hb_account_id : json;
  hb_company_name : json;
  hb_seq : json }.

(** The body of [for contract in response.get("data", [])] (lines 57-73). *)
Definition contract_entries (contract : json) : res (list hb_contract) :=
  let* enabled := py_get contract "enabled" JNull in
  if negb (truthy enabled) then Ok [] else
  let* company_name := py_get contract "name" (JStr "") in
  let* accounts := py_get contract "accounts" (JArr []) in
  let* accounts := py_iter accounts in
  flat_map_res (fun account =>
    let* contract_id := py_get account "contract_id" JNull in
    let* account_id := py_get account "account_id" JNull in
    if truthy contract_id && truthy account_id then
      let* seq := py_get contract "seq" JNull in
      Ok [mk_hb_contract contract_id account_id company_name seq]
    else Ok []) accounts.

(** [fetch_akamai_contracts] after [client.fetch("contract", ...)] has
    returned [response]. *)
Definition fetch_akamai_contracts (response : json) : res (list hb_contract) :=
  let* data := py_get response "data" (JArr []) in
  let* items := py_iter data in
  flat_map_res contract_entries items.

End Fetch.

(* ================================================================= *)
(** ** In-memory flattening (main.py lines 302-433) *)

Module Flatten.
Import Json.
Local Open Scope string_scope.

Record usage_row := mk_usage_row {
  ur_billing_month : string;
  ur_contract_id : json;
  ur_account_id : json;
  ur_company_name : json;
  ur_product_id : json;
  ur_product_name : json;
  ur_region : json;
  ur_stat_type : json;
  ur_unit : json;
  ur_is_billable : json;
  ur_date : json;
  ur_value : json;
  ur_data_status : json;
  ur_request_date : json }.

Record rg_row := mk_rg_row {
  gr_billing_month : string;
  gr_contract_id : json;
  gr_account_id : json;
  gr_company_name : json;
  gr_product_id : json;
  gr_product_name : json;
  gr_reporting_group_id : json;
  gr_reporting_group_name : json;
  gr_region : json;
  gr_stat_type : json;
  gr_unit : json;
  gr_is_billable : json;
  gr_date : json;
  gr_value : json;
  gr_data_status : json;
  gr_request_date : json }.

Record product_row := mk_product_row {
  pr_billing_month : string;
  pr_contract_id : string;
  pr_account_id : json;
  pr_company_name : json;
  pr_product_id : json;
  pr_product_name : json;
  pr_reporting_group_id : json;
  pr_reporting_group_name : json;
  pr_month : json;
  pr_start : json;
  pr_end : json;
  pr_request_date : json }.

(** [flatten_product_usage] (lines 302-338). *)
Definition flatten_product_usage (raw_data : list (string * json)) (billing_month : string)
    : res (list usage_row) :=
  flat_map_res (fun record =>
    let* contract_id := py_get record "contractId" JNull in
    let* account_id := py_get record "accountId" JNull in
    let* company_name := py_get record "companyName" JNull in
    let* product_id := py_get record "productId" JNull in
    let* product_name := py_get record "productName" JNull in
    let* data := py_get record "data" (JObj []) in
    let* data_status := py_get data "dataStatus" JNull in
    let* request_date := py_get data "requestDate" JNull in
    let* periods := py_get data "usagePeriods" (JArr []) in
    let* periods := py_iter periods in
    flat_map_res (fun period =>
      let* region := py_get period "region" JNull in
      let* stats := py_get period "stats" (JArr []) in
      let* stats := py_iter stats in
      flat_map_res (fun stat =>
        let* stat_type := py_get stat "statType" JNull in
        let* unit' := py_get stat "unit" JNull in
        let* is_billable := py_get stat "isBillable" JNull in
        let* values := py_get stat "values" (JArr []) in
        let* values := py_iter values in
        Billing.map_res (fun v =>
          let* date := py_get v "date" JNull in
          let* value := py_get v "value" JNull in
          Ok (mk_usage_row billing_month contract_id account_id company_name
                product_id product_name region stat_type unit' is_billable
                date value data_status request_date)) values) stats) periods)
    (map snd raw_data).

(** [flatten_reporting_group_usage] (lines 341-381). *)
Definition flatten_reporting_group_usage (raw_data : list (string * json))
    (billing_month : string) : res (list rg_row) :=
  flat_map_res (fun record =>
    let* contract_id := py_get record "contractId" JNull in
    let* account_id := py_get record "accountId" JNull in
    let* company_name := py_get record "companyName" JNull in
    let* product_id := py_get record "productId" JNull in
    let* product_name := py_get record "productName" JNull in
    let* rg_id := py_get record "reportingGroupId" JNull in
    let* rg_name := py_get record "reportingGroupName" JNull in
    let* data := py_get record "data" (JObj []) in
    let* data_status := py_get data "dataStatus" JNull in
    let* request_date := py_get data "requestDate" JNull in
    let* periods := py_get data "usagePeriods" (JArr []) in
    let* periods := py_iter periods in
    flat_map_res (fun period =>
      let* region := py_get period "region" JNull in
      let* stats := py_get period "stats" (JArr []) in
      let* stats := py_iter stats in
      flat_map_res (fun stat =>
        let* stat_type := py_get stat "statType" JNull in
        let* unit' := py_get stat "unit" JNull in
        let* is_billable := py_get stat "isBillable" JNull in
        let* values := py_get stat "values" (JArr []) in
        let* values := py_iter values in
        Billing.map_res (fun v =>
          let* date := py_get v "date" JNull in
          let* value := py_get v "value" JNull in
          Ok (mk_rg_row billing_month contract_id account_id company_name
                product_id product_name rg_id rg_name region stat_type unit' is_billable
                date value data_status request_date)) values) stats) periods)
    (map snd raw_data).

(** The body of [for product in period.get("usageProducts", [])] in
    [flatten_products] (lines 397-432). *)
Definition product_rows (billing_month contract_id : string)
    (account_id company_name month start end_ request_date : json) (product : json)
    : res (list product_row) :=
  let* product_id := py_get product "productId" JNull in
  let* product_name := py_get product "productName" JNull in
  let* reporting_groups := py_get product "reportingGroups" (JArr []) in
  if truthy reporting_groups then
    let* rgs := py_iter reporting_groups in
    Billing.map_res (fun rg =>
      let* rg_id := py_get rg "reportingGroupId" JNull in
      let* rg_name := py_get rg "reportingGroupName" JNull in
      Ok (mk_product_row billing_month contract_id account_id company_name
            product_id product_name rg_id rg_name month start end_ request_date)) rgs
  else
    Ok [mk_product_row billing_month contract_id account_id company_name
          product_id product_name JNull JNull month start end_ request_date].

(** [flatten_products] (lines 384-433): [raw_data.items()] gives the
    contract id as the key. *)
Definition flatten_products (raw_data : list (string * json)) (billing_month : string)
    : res (list product_row) :=
  flat_map_res (fun item =>
    let '(contract_id, record) := item in
    let* account_id := py_get record "accountId" JNull in
    let* company_name := py_get record "companyName" JNull in
    let* data := py_get record "data" (JObj []) in
    let* request_date := py_get data "requestDate" JNull in
    let* start := py_get data "start" JNull in
    let* end_ := py_get data "end" JNull in
    let* periods := py_get data "usagePeriods" (JArr []) in
    let* periods := py_iter periods in
    flat_map_res (fun period =>
      let* month := py_get period "month" JNull in
      let* products := py_get period "usageProducts" (JArr []) in
      let* products := py_iter products in
      flat_map_res (product_rows billing_month contract_id account_id company_name
                      month start end_ request_date) products) periods)
    raw_data.

(** The number of reporting groups [flatten_products] iterates for a
    product: the length of its ["reportingGroups"] list. *)
Definition group_count (product : json) : nat :=
  match product with
  | JObj fields =>
      match PyDict.get_default "reportingGroups" fields (JArr []) with
      | JArr rgs => length rgs
      | _ => 0
      end
  | _ => 0
  end.

End Flatten.

(* ================================================================= *)
(** ** AkamaiClient's base URL (akamai_client.py lines 45-58) *)

Module ClientInit.
Local Open Scope string_scope.

(** [s.rstrip(ch)] for one character. *)
Fixpoint rstrip (ch : ascii) (s : string) : string :=
  match s with
  | EmptyString => EmptyString
  | String c s' =>
      match rstrip ch s' with
      | EmptyString => if Ascii.eqb c ch then EmptyString else String c EmptyString
      | r => String c r
      end
  end.

(** The [self.base_url] that [AkamaiClient(...)] stores, or the
    [ValueError] of its guard; the session set-up between the two does not
    read [base_url]. *)
Definition init_base_url (base_url : string) : res string :=
  if negb (truthy_str base_url)
  then Raise "AKAMAI_BASE_URL이 비어있습니다. GitHub Secret을 확인하세요."
  else Ok (rstrip "/"%char base_url).

End ClientInit.

(* ================================================================= *)
(** ** Sample inputs for the concrete runs below *)

Module ExtraScenarios.
Import Json Akamai Billing Scenarios.
Local Open Scope string_scope.

(** A contract list as [client.fetch("contract", ...)] returns it. *)
Definition contracts_response (items : list json) : json := JObj [("data", JArr items)].

Definition sample_accounts : json :=
  JArr [JObj [("contract_id", JStr "1-A"); ("account_id", JStr "acc-1")];
        JObj [("contract_id", JNull); ("account_id", JStr "acc-2")]].

Definition enabled_contract : list (string * json) :=
  [("enabled", JBool true); ("name", JStr "Company A"); ("seq", JNum 7);
   ("accounts", sample_accounts)].

Definition disabled_contract : list (string * json) :=
  [("enabled", JBool false); ("name", JStr "Off"); ("accounts", JNull)].

Definition null_accounts_contract : list (string * json) :=
  [("enabled", JBool true); ("name", JStr "Company B"); ("accounts", JNull)].

(** A product with two reporting groups, the second without a name. *)
Definition grouped_product : json :=
  JObj [("productId", JStr "P1"); ("productName", JStr "Product 1");
        ("reportingGroups",
         JArr [JObj [("reportingGroupId", JStr "RG1"); ("reportingGroupName", JStr "Group 1")];
               JObj [("reportingGroupId", JStr "RG2")]])].

(** A record of the [products] dict whose listing has the
    [{"products": [...]}] shape. *)
Definition products_shaped_record : list (string * json) :=
  [("accountId", JStr "acc-1"); ("companyName", JStr "Company A");
   ("data", JObj [("products", JArr [JObj [("productId", JStr "P2")]])])].

(** Unit ["1-B"]'s listing call answers with an error; the others list
    [P1]. *)
Definition one_failing_client : client :=
  scenario_client
    (fun cid => if String.eqb cid "1-B" then (None, Some "500 - Internal Server Error")
                else (Some (products_listing [plain_product "P1"]), None))
    usage_ok.

End ExtraScenarios.


(* ================================================================= *)
(** * Proofs *)

(* ----------------------------------------------------------------- *)
(** ** RateLimiter *)

Module RateLimiterFacts.
Import RateLimiter.

Lemma filter_length_mono {A} (f g : A -> bool) (l : list A) :
  (forall x, In x l -> f x = true -> g x = true) ->
  length (filter f l) <= length (filter g l).
Proof.
  induction l as [|x l IH]; intros Hfg; simpl; [lia|].
  destruct (f x) eqn:Hf.
  - rewrite (Hfg x (or_introl eq_refl) Hf). simpl.
    specialize (IH (fun y Hy => Hfg y (or_intror Hy))). lia.
  - destruct (g x); simpl; specialize (IH (fun y Hy => Hfg y (or_intror Hy))); lia.
Qed.

Lemma prune_length_le now ts : length (prune now ts) <= length ts.
Proof. unfold prune. apply List.filter_length_le. Qed.

(** Pruning at [L] and then at a later [n] is pruning at [n]. *)
Lemma prune_prune (L n : Z) l :
  (L <= n)%Z ->
  prune n (filter (fun x => L - x <? 60)%Z l) = filter (fun x => n - x <? 60)%Z l.
Proof.
  intros Hle. unfold prune. induction l as [|x l IH]; simpl; [reflexivity|].
  destruct (Z.ltb_spec (L - x) 60); destruct (Z.ltb_spec (n - x) 60); simpl;
    try (destruct (Z.ltb_spec (n - x) 60)); try lia; rewrite ?IH; reflexivity.
Qed.

Lemma snoc_decompose (adm : list Z) x pre y post :
  pre ++ y :: post = adm ++ [x] ->
  (pre = adm /\ y = x /\ post = []) \/
  (exists post', post = post' ++ [x] /\ adm = pre ++ y :: post').
Proof.
  destruct post as [|z post'] using rev_ind; intros Heq.
  - apply app_inj_tail in Heq as [-> ->]. left. auto.
  - right. clear IHpost'.
    replace (pre ++ y :: post' ++ [z]) with ((pre ++ y :: post') ++ [z]) in Heq
      by (rewrite <- app_assoc; reflexivity).
    apply app_inj_tail in Heq as [Hadm ->]. eauto.
Qed.

Lemma admissions_ok_snoc N adm x :
  admissions_ok N adm ->
  (Z.of_nat (length (filter (fun y => x - y <? 60)%Z adm)) < N)%Z ->
  admissions_ok N (adm ++ [x]).
Proof.
  intros Hok Hx pre y post Heq.
  destruct (snoc_decompose adm x pre y post (eq_sym Heq))
    as [[-> [-> ->]] | [post' [-> Hadm]]].
  - exact Hx.
  - exact (Hok pre y post' Hadm).
Qed.

Lemma admissions_ok_init N adm x :
  admissions_ok N (adm ++ [x]) -> admissions_ok N adm.
Proof.
  intros Hok pre y post ->. apply (Hok pre y (post ++ [x])).
  rewrite <- app_assoc. reflexivity.
Qed.

(** The counting argument: in any window, the last admitted timestamp saw
    every other one of the window as less than 60 seconds old. *)
Lemma admissions_ok_window N adm a :
  (0 <= N)%Z -> admissions_ok N adm ->
  (Z.of_nat (length (filter (in_window a) adm)) <= N)%Z.
Proof.
  intros HN. induction adm as [|x adm IH] using rev_ind; intros Hok; [simpl; lia|].
  pose proof (admissions_ok_init _ _ _ Hok) as Hok'.
  pose proof (Hok adm x [] eq_refl) as Hx.
  rewrite filter_app. simpl. rewrite length_app.
  destruct (in_window a x) eqn:Hwx; simpl.
  - assert (length (filter (in_window a) adm)
              <= length (filter (fun y => x - y <? 60)%Z adm)).
    { apply filter_length_mono. intros y _ Hwy. unfold in_window in *.
      apply andb_prop in Hwx as [Hax Hxa]; apply andb_prop in Hwy as [Hay Hya].
      apply Z.leb_le in Hax, Hay. apply Z.ltb_lt in Hxa, Hya. apply Z.ltb_lt. lia. }
    lia.
  - specialize (IH Hok'). lia.
Qed.

Lemma run_invariant N : forall nows rl adm L,
  max_per_minute rl = N ->
  request_times rl = filter (fun x => L - x <? 60)%Z adm ->
  (Z.of_nat (length (request_times rl)) <= N)%Z ->
  Forall (Z.le L) nows -> nondecreasing nows = true ->
  admissions_ok N adm ->
  admissions_ok N (fst (run rl adm nows)) /\
  (Z.of_nat (length (request_times (snd (run rl adm nows)))) <= N)%Z.
Proof.
  induction nows as [|n rest IH]; intros rl adm L Hmax Hrt Hlen Hge Hnd Hok;
    [simpl; auto|].
  apply Forall_cons_iff in Hge as [HLn Hrest].
  assert (Hrest' : Forall (Z.le n) rest /\ nondecreasing rest = true).
  { destruct rest as [|m rest']; simpl in Hnd; [split; auto|].
    apply andb_prop in Hnd as [Hnm Hnd']. apply Z.leb_le in Hnm.
    split; [|exact Hnd'].
    constructor; [lia|].
    clear -Hnm Hnd'. revert m Hnm Hnd'.
    induction rest' as [|k rest' IH']; intros m Hnm Hnd'; constructor.
    - simpl in Hnd'. apply andb_prop in Hnd' as [Hmk _]. apply Z.leb_le in Hmk. lia.
    - simpl in Hnd'. apply andb_prop in Hnd' as [Hmk Hnd'']. apply Z.leb_le in Hmk.
      apply (IH' k); [lia|exact Hnd'']. }
  destruct Hrest' as [Hge' Hnd'].
  assert (Hpr : prune n (request_times rl) = filter (fun x => n - x <? 60)%Z adm).
  { rewrite Hrt. apply prune_prune. exact HLn. }
  pose proof (prune_length_le n (request_times rl)) as Hpl.
  simpl. unfold attempt. rewrite Hmax, Hpr.
  destruct (Z.ltb_spec (Z.of_nat (length (filter (fun x => n - x <? 60)%Z adm))) N) as [Hlt|Hge2].
  - apply (IH _ _ n); simpl; auto.
    + rewrite filter_app. simpl. rewrite Z.sub_diag. reflexivity.
    + rewrite length_app. simpl. lia.
    + apply admissions_ok_snoc; assumption.
  - rewrite <- Hpr in Hge2 |- *.
    assert (Hfin : forall rl', rl' = mk N (prune n (request_times rl)) ->
      admissions_ok N (fst (run rl' adm rest)) /\
      (Z.of_nat (length (request_times (snd (run rl' adm rest)))) <= N)%Z).
    { intros rl' ->. apply (IH _ _ n); simpl; auto. lia. }
    destruct (prune n (request_times rl)) as [|t0 ts]; apply Hfin; reflexivity.
Qed.

(** C1: with a positive limit [N] and a clock that does not go backwards,
    whatever the interleaving of concurrent [acquire] calls, no 60-second
    window ever holds more than [N] admitted timestamps, and the stored
    window never holds more than [N] entries. *)
Theorem acquire_window_bound (N : Z) (nows : list Z) :
  (0 < N)%Z -> nondecreasing nows = true ->
  (forall a, (Z.of_nat (length (filter (in_window a) (fst (run (init N) [] nows)))) <= N)%Z) /\
  (Z.of_nat (length (request_times (snd (run (init N) [] nows)))) <= N)%Z.
Proof.
  intros HN Hnd.
  destruct nows as [|n0 rest].
  { simpl. split; [intros; lia|lia]. }
  destruct (run_invariant N (n0 :: rest) (init N) [] n0) as [Hok Hlen];
    simpl; auto; try lia.
  - constructor; [lia|]. clear -Hnd. revert n0 Hnd.
    induction rest as [|k rest IH]; intros n0 Hnd; constructor.
    + simpl in Hnd. apply andb_prop in Hnd as [H _]. apply Z.leb_le in H. lia.
    + simpl in Hnd. apply andb_prop in Hnd as [H Hnd']. apply Z.leb_le in H.
      specialize (IH k Hnd'). eapply Forall_impl; [|exact IH]. simpl. intros; lia.
  - intros pre x post Heq. destruct pre; discriminate.
  - split; [|exact Hlen]. intros a. apply admissions_ok_window; [lia|exact Hok].
Qed.

Lemma attempt_init_nonpositive N now :
  (N <= 0)%Z -> attempt (init N) now = (IndexError, init N).
Proof.
  intros HN. unfold attempt, init. simpl.
  destruct (Z.ltb_spec 0 N); [lia|reflexivity].
Qed.

(** C6: with a limit [<= 0], no critical section of [acquire] ever admits:
    whatever the sequence of attempts, nothing is appended to the window,
    and every attempt ends in the [IndexError] of [self.request_times[0]],
    so no [acquire] call returns. *)
Theorem acquire_nonpositive_never_admits (N : Z) (nows : list Z) :
  (N <= 0)%Z ->
  run (init N) [] nows = ([], init N) /\
  (forall now, fst (attempt (init N) now) = IndexError).
Proof.
  intros HN. split.
  - induction nows as [|n rest IH]; [reflexivity|].
    simpl. rewrite (attempt_init_nonpositive N n HN). exact IH.
  - intros now. rewrite (attempt_init_nonpositive N now HN). reflexivity.
Qed.

End RateLimiterFacts.

(* ----------------------------------------------------------------- *)
(** ** Python dict *)

Module PyDictFacts.
Import PyDict.

Lemma get_set {V} k k' (v : V) d :
  get k (set k' v d) = if String.eqb k k' then Some v else get k d.
Proof.
  induction d as [|[k0 v0] d IH]; simpl.
  - destruct (String.eqb k k'); reflexivity.
  - destruct (String.eqb_spec k' k0) as [->|Hne]; simpl.
    + destruct (String.eqb k k0); reflexivity.
    + destruct (String.eqb_spec k k0) as [->|Hk0].
      * destruct (String.eqb_spec k0 k') as [->|]; [congruence|reflexivity].
      * rewrite IH. reflexivity.
Qed.

Lemma set_not_nil {V} k (v : V) d : set k v d <> [].
Proof.
  destruct d as [|[k0 v0] d]; simpl; [discriminate|].
  destruct (String.eqb k k0); discriminate.
Qed.

Lemma keys_set {V} k (v : V) d :
  keys (set k v d) = if existsb (String.eqb k) (keys d) then keys d else keys d ++ [k].
Proof.
  induction d as [|[k0 v0] d IH]; simpl; [reflexivity|].
  destruct (String.eqb_spec k k0) as [->|Hne]; simpl; [reflexivity|].
  rewrite IH. destruct (existsb (String.eqb k) (keys d)); reflexivity.
Qed.

Lemma existsb_eqb_false k l : ~ In k l -> existsb (String.eqb k) l = false.
Proof.
  intros Hn. apply Bool.not_true_iff_false. intros Hx.
  apply existsb_exists in Hx as [k' [Hin Heq]]. apply String.eqb_eq in Heq. subst. auto.
Qed.

Lemma in_keys_set {V} k k' (v : V) d : In k (keys (set k' v d)) -> k = k' \/ In k (keys d).
Proof.
  rewrite keys_set. destruct (existsb (String.eqb k') (keys d)); [auto|].
  intros H. apply in_app_or in H as [H|[H|[]]]; auto.
Qed.

Lemma nodup_keys_set {V} k (v : V) d : NoDup (keys d) -> NoDup (keys (set k v d)).
Proof.
  intros Hd. rewrite keys_set.
  destruct (existsb (String.eqb k) (keys d)) eqn:E; [exact Hd|].
  apply NoDup_app; [exact Hd|constructor; [intros []|constructor]|].
  intros a Ha [Hk|[]]. subst k.
  assert (existsb (String.eqb a) (keys d) = true)
    by (apply existsb_exists; exists a; split; [exact Ha|apply String.eqb_refl]).
  congruence.
Qed.

Lemma nodup_app_disjoint {A} (l1 l2 : list A) :
  NoDup (l1 ++ l2) -> forall x, In x l1 -> ~ In x l2.
Proof.
  induction l1 as [|a l1 IH]; intros Hnd x Hx; [destruct Hx|].
  simpl in Hnd. apply NoDup_cons_iff in Hnd as [Ha Hnd].
  destruct Hx as [<-|Hx].
  - intros H2. apply Ha. apply in_or_app. right. exact H2.
  - exact (IH Hnd x Hx).
Qed.

Lemma update_app {V} (d m1 m2 : dict V) : update d (m1 ++ m2) = update (update d m1) m2.
Proof. unfold update. apply fold_left_app. Qed.

Lemma update_cons {V} (d : dict V) k v m : update d ((k, v) :: m) = update (set k v d) m.
Proof. reflexivity. Qed.

(** A key of [m] is read from [m] (its last assignment), any other from [d]. *)
Lemma get_update {V} k (m : dict V) : forall d,
  get k (update d m) = match get k (update [] m) with Some v => Some v | None => get k d end.
Proof.
  induction m as [|[k' v'] m IH]; intros d; [reflexivity|].
  rewrite !update_cons, IH, (IH (set k' v' [])), !get_set.
  destruct (get k (update [] m)); [reflexivity|].
  destruct (String.eqb k k'); reflexivity.
Qed.

Lemma get_update_notin {V} k (m : dict V) d :
  ~ In k (keys m) -> get k (update d m) = get k d.
Proof.
  revert d. induction m as [|[k' v'] m IH]; intros d Hn; [reflexivity|].
  rewrite update_cons, IH by (intros H; apply Hn; right; exact H).
  rewrite get_set. destruct (String.eqb_spec k k') as [->|]; [|reflexivity].
  exfalso. apply Hn. left. reflexivity.
Qed.

Lemma keys_update {V} (m : dict V) : forall d,
  NoDup (keys d ++ keys m) -> keys (update d m) = keys d ++ keys m.
Proof.
  induction m as [|[k v] m IH]; intros d Hnd.
  { cbn. rewrite app_nil_r. reflexivity. }
  change (keys ((k, v) :: m)) with (k :: keys m) in *.
  rewrite update_cons, IH.
  - rewrite keys_set, existsb_eqb_false, <- app_assoc; [reflexivity|].
    intros Hk. apply NoDup_remove_2 in Hnd. apply Hnd. apply in_or_app. left. exact Hk.
  - rewrite keys_set, existsb_eqb_false, <- app_assoc; [exact Hnd|].
    intros Hk. apply NoDup_remove_2 in Hnd. apply Hnd. apply in_or_app. left. exact Hk.
Qed.

Lemma get_update_equiv {V} (m : dict V) d1 d2 :
  (forall k, get k d1 = get k d2) -> forall k, get k (update d1 m) = get k (update d2 m).
Proof. intros H k. rewrite (get_update k m d1), (get_update k m d2), H. reflexivity. Qed.

Lemma update_swap {V} (m1 m2 : dict V) d :
  (forall k, In k (keys m1) -> ~ In k (keys m2)) ->
  forall k, get k (update (update d m1) m2) = get k (update (update d m2) m1).
Proof.
  intros Hdis k.
  destruct (in_dec string_dec k (keys m1)) as [H1|H1].
  - pose proof (Hdis k H1) as H2.
    rewrite (get_update_notin k m2 _ H2), (get_update k m1 (update d m2)),
      (get_update k m1 d), (get_update_notin k m2 _ H2). reflexivity.
  - rewrite (get_update_notin k m1 _ H1), (get_update k m2 (update d m1)),
      (get_update k m2 d), (get_update_notin k m1 _ H1). reflexivity.
Qed.

Lemma get_update_nodup {V} k (m : dict V) : forall d,
  NoDup (keys m) -> In k (keys m) -> get k (update d m) = get k m.
Proof.
  induction m as [|[k' v'] m IH]; intros d Hnd Hin; [destruct Hin|].
  change (keys ((k', v') :: m)) with (k' :: keys m) in *.
  apply NoDup_cons_iff in Hnd as [Hk' Hnd].
  rewrite update_cons. cbn [get].
  destruct (in_dec string_dec k (keys m)) as [Hm|Hm].
  - rewrite (IH _ Hnd Hm). destruct (String.eqb_spec k k') as [->|]; [contradiction|reflexivity].
  - destruct Hin as [->|Hin]; [|contradiction].
    rewrite (get_update_notin k m _ Hm), get_set, String.eqb_refl.
    reflexivity.
Qed.

Lemma keys_app {V} (a b : dict V) : keys (a ++ b) = keys a ++ keys b.
Proof. apply map_app. Qed.

Lemma in_keys_flat_map {A V} (f : A -> dict V) k l :
  In k (keys (flat_map f l)) -> exists x, In x l /\ In k (keys (f x)).
Proof.
  induction l as [|x l IH]; cbn [flat_map]; [intros []|].
  rewrite keys_app. intros [H|H]%in_app_or.
  - exists x. split; [left; reflexivity|exact H].
  - destruct (IH H) as [y [Hy Hk]]. exists y. split; [right; exact Hy|exact Hk].
Qed.

Lemma set_notin {V} k (v : V) d : ~ In k (keys d) -> set k v d = d ++ [(k, v)].
Proof.
  induction d as [|[k' v'] d IH]; intros Hn; [reflexivity|].
  change (keys ((k', v') :: d)) with (k' :: keys d) in Hn. cbn [set].
  destruct (String.eqb_spec k k') as [->|]; [exfalso; apply Hn; left; reflexivity|].
  rewrite IH; [reflexivity|]. intros H. apply Hn. right. exact H.
Qed.

(** Fresh keys are appended in order. *)
Lemma update_fresh {V} (m : dict V) : forall d,
  NoDup (keys d ++ keys m) -> update d m = d ++ m.
Proof.
  induction m as [|[k v] m IH]; intros d Hnd; [rewrite app_nil_r; reflexivity|].
  change (keys ((k, v) :: m)) with (k :: keys m) in Hnd.
  assert (Hk : ~ In k (keys d)).
  { apply NoDup_remove_2 in Hnd. intros H. apply Hnd. apply in_or_app. left. exact H. }
  rewrite update_cons, (set_notin k v d Hk), IH, <- app_assoc; [reflexivity|].
  rewrite keys_app, <- app_assoc. exact Hnd.
Qed.

(** Merging a sequence of dicts by [update]. *)
Section Merge.
Context {O V : Type} (contrib : O -> dict V).

Lemma merge_equiv outs : forall d1 d2,
  (forall k, get k d1 = get k d2) ->
  forall k, get k (fold_left (fun d o => update d (contrib o)) outs d1) =
            get k (fold_left (fun d o => update d (contrib o)) outs d2).
Proof.
  induction outs as [|o outs IH]; intros d1 d2 H; simpl; [exact H|].
  apply IH. apply get_update_equiv. exact H.
Qed.

(** When no key comes from two merged dicts, the merge does not depend on
    their order. *)
Lemma merge_perm outs outs' :
  Permutation outs outs' ->
  NoDup (flat_map (fun o => keys (contrib o)) outs) ->
  forall d k, get k (fold_left (fun d o => update d (contrib o)) outs d) =
              get k (fold_left (fun d o => update d (contrib o)) outs' d).
Proof.
  induction 1 as [|o l l' _ IH|o1 o2 l|l l' l'' H1 IH1 H2 IH2]; intros Hnd d k.
  - reflexivity.
  - simpl. apply IH. simpl in Hnd. exact (NoDup_app_remove_l _ _ Hnd).
  - simpl. apply merge_equiv. apply update_swap.
    simpl in Hnd. rewrite app_assoc in Hnd. apply NoDup_app_remove_r in Hnd.
    exact (nodup_app_disjoint _ _ Hnd).
  - rewrite (IH1 Hnd d k). apply IH2.
    eapply Permutation_NoDup; [|exact Hnd]. apply (Permutation_flat_map _). exact H1.
Qed.

Lemma merge_keys outs : forall d,
  NoDup (keys d ++ flat_map (fun o => keys (contrib o)) outs) ->
  keys (fold_left (fun d o => update d (contrib o)) outs d) =
  keys d ++ flat_map (fun o => keys (contrib o)) outs.
Proof.
  induction outs as [|o outs IH]; intros d Hnd.
  - cbn [fold_left flat_map]. rewrite app_nil_r. reflexivity.
  - cbn [fold_left flat_map] in *.
    assert (H1 : NoDup (keys d ++ keys (contrib o))).
    { rewrite app_assoc in Hnd. exact (NoDup_app_remove_r _ _ Hnd). }
    rewrite IH; rewrite keys_update by exact H1; rewrite <- app_assoc; [reflexivity|exact Hnd].
Qed.

Lemma merge_get_notin outs k : forall d,
  (forall o, In o outs -> ~ In k (keys (contrib o))) ->
  get k (fold_left (fun d o => update d (contrib o)) outs d) = get k d.
Proof.
  induction outs as [|o outs IH]; intros d Hn; [reflexivity|].
  cbn [fold_left]. rewrite IH by (intros o' Ho'; apply Hn; right; exact Ho').
  apply get_update_notin. apply Hn. left. reflexivity.
Qed.

(** A key contributed by exactly one merged dict keeps that dict's value. *)
Lemma merge_get_owner outs o k d :
  NoDup (flat_map (fun o => keys (contrib o)) outs) ->
  (forall o, In o outs -> NoDup (keys (contrib o))) ->
  In o outs -> In k (keys (contrib o)) ->
  get k (fold_left (fun d o => update d (contrib o)) outs d) = get k (contrib o).
Proof.
  intros Hnd Hown Ho Hk. apply in_split in Ho as [A [B ->]].
  rewrite fold_left_app. cbn [fold_left].
  rewrite flat_map_app in Hnd. cbn [flat_map] in Hnd.
  apply NoDup_app_remove_l in Hnd.
  rewrite merge_get_notin.
  - apply get_update_nodup; [|exact Hk]. apply Hown. apply in_or_app. right. left. reflexivity.
  - intros o' Ho' Hk'. apply (nodup_app_disjoint _ _ Hnd k Hk).
    apply in_flat_map. exists o'. split; assumption.
Qed.

End Merge.

End PyDictFacts.

(* ----------------------------------------------------------------- *)
(** ** ReadinessProbe *)

Module ProbeFacts.
Import Akamai Billing.

Lemma map_res_ok {A B} (f : A -> res B) (g : A -> B) l :
  (forall x, In x l -> f x = Ok (g x)) -> map_res f l = Ok (map g l).
Proof.
  induction l as [|x l IH]; intros Hf; simpl; [reflexivity|].
  rewrite (Hf x (or_introl eq_refl)). simpl.
  rewrite IH; [reflexivity|]. intros y Hy. apply Hf. right. exact Hy.
Qed.

Lemma sample_index_bound n i :
  0 < n -> i < Nat.min 5 n -> i * Nat.max 1 (n / Nat.min 5 n) < n.
Proof.
  intros Hn Hi. destruct (Nat.le_gt_cases n 5) as [Hle|Hgt].
  - rewrite Nat.min_r in * by exact Hle.
    rewrite Nat.div_same by lia. simpl. lia.
  - rewrite Nat.min_l in * by lia.
    assert (Hq : 1 <= n / 5) by (apply Nat.div_le_lower_bound; lia).
    rewrite Nat.max_r by exact Hq.
    pose proof (Nat.Div0.mul_div_le n 5). nia.
Qed.

Lemma select_samples_shape {A} (contracts : list A) :
  contracts <> [] ->
  let n := length contracts in
  let sample_count := Nat.min 5 n in
  let step := Nat.max 1 (n / sample_count) in
  (forall i, i < sample_count -> i * step < n) /\
  exists samples,
    select_samples contracts = Ok samples /\
    length samples = sample_count /\
    (forall i, i < sample_count -> nth_error samples i = nth_error contracts (i * step)).
Proof.
  intros Hne n sample_count step.
  assert (exists d0 : A, True) as [d0 _]
    by (destruct contracts as [|d rest]; [congruence|exists d; exact I]).
  assert (Hn : 0 < n) by (unfold n; destruct contracts; [congruence|simpl; lia]).
  assert (Hb : forall i, i < sample_count -> i * step < n)
    by (intros i Hi; apply sample_index_bound; assumption).
  split; [exact Hb|].
  exists (map (fun i => nth (i * step) contracts d0) (seq 0 sample_count)).
  split; [|split].
  - unfold select_samples, floordiv. fold n. fold sample_count.
    destruct (Nat.eqb_spec sample_count 0) as [H0|_]; [unfold sample_count in H0; lia|].
    simpl. fold step. apply map_res_ok. intros i Hi. apply in_seq in Hi.
    unfold py_index. rewrite (nth_error_nth' contracts d0); [reflexivity|].
    specialize (Hb i ltac:(lia)). exact Hb.
  - rewrite length_map, length_seq. reflexivity.
  - intros i Hi. rewrite nth_error_map, nth_error_seq.
    destruct (Nat.ltb_spec i sample_count); [|lia]. simpl.
    symmetry. apply nth_error_nth'. exact (Hb i Hi).
Qed.

(** C5: on a non-empty list of [n] Units the probe selects [min(5, n)]
    Units, the one at index [i * step] for each [i < min(5, n)], with
    [step = max(1, n // min(5, n))], every index in bounds.  [select_samples]
    is a function of the list alone, so repeated calls select the same Units. *)
Theorem select_samples_spec {A} (contracts : list A) :
  contracts <> [] ->
  let n := length contracts in
  let sample_count := Nat.min 5 n in
  let step := Nat.max 1 (n / sample_count) in
  (forall i, i < sample_count -> i * step < n) /\
  exists samples,
    select_samples contracts = Ok samples /\
    length samples = sample_count /\
    (forall i, i < sample_count -> nth_error samples i = nth_error contracts (i * step)).
Proof. exact (select_samples_shape contracts). Qed.

Lemma probe_samples_step cl limit month next_month c rest st :
  probe_samples cl limit month next_month (c :: rest) st =
  let* o := sample_status cl limit month next_month c in
  probe_samples cl limit month next_month rest
    (match o with Some status => tally st status | None => st end).
Proof.
  simpl. unfold sample_status.
  destruct (acquire limit) as [[]|e]; simpl; [|reflexivity].
  destruct (get_products cl (contract_id c) (account_id c) month next_month)
    as [[pd err]|e]; simpl; [|reflexivity].
  destruct (truthy_id err); [destruct pd; reflexivity|].
  destruct pd as [pd|]; [|reflexivity].
  destruct (negb (listing_truthy pd)); [reflexivity|].
  destruct (extract_products pd) as [|fp ps]; [reflexivity|]. simpl.
  destruct (get_product_usage cl (contract_id c) (account_id c) (productId fp) month)
    as [[ud uerr]|e]; simpl; [|reflexivity].
  destruct (truthy_id uerr); [destruct ud; reflexivity|].
  destruct ud as [d|]; [|reflexivity].
  destruct (negb (usage_truthy d)); reflexivity.
Qed.

(** The probing loop is the tally of the observed statuses. *)
Lemma probe_samples_observed cl limit month next_month samples : forall st,
  probe_samples cl limit month next_month samples st =
  let* obs := observed_statuses cl limit month next_month samples in
  Ok (fold_left tally obs st).
Proof.
  induction samples as [|c rest IH]; intros st; [reflexivity|].
  rewrite probe_samples_step. simpl.
  destruct (sample_status cl limit month next_month c) as [o|e]; simpl; [|reflexivity].
  rewrite IH.
  destruct (observed_statuses cl limit month next_month rest) as [obs|e]; simpl;
    [|reflexivity].
  destruct o; reflexivity.
Qed.

Lemma tally_count k obs : forall st,
  PyDict.get_default k (fold_left tally obs st) 0%Z =
  (PyDict.get_default k st 0 + Z.of_nat (count_occ string_dec obs k))%Z.
Proof.
  induction obs as [|s obs IH]; intros st; simpl; [lia|].
  rewrite IH. unfold tally at 1, PyDict.get_default at 1.
  rewrite PyDictFacts.get_set.
  destruct (String.eqb_spec k s) as [->|Hne].
  - destruct (string_dec s s) as [_|]; [|congruence].
    unfold PyDict.get_default. lia.
  - destruct (string_dec s k) as [->|_]; [congruence|]. reflexivity.
Qed.

Lemma tally_not_nil obs : forall st,
  st <> [] -> fold_left tally obs st <> [].
Proof.
  induction obs as [|s obs IH]; intros st Hst; simpl; [exact Hst|].
  apply IH. apply PyDictFacts.set_not_nil.
Qed.

Lemma tally_nil_iff obs : fold_left tally obs [] = [] <-> obs = [].
Proof.
  destruct obs as [|s obs]; simpl; split; intros H; try reflexivity; try discriminate.
  exfalso. exact (tally_not_nil obs _ (PyDictFacts.set_not_nil _ _ _) H).
Qed.

Lemma is_ready_iff statuses :
  is_ready statuses = true <->
  PyDict.get_default "COLLECTING_DATA" statuses 0%Z = 0%Z /\ statuses <> [].
Proof.
  unfold is_ready. rewrite andb_true_iff, Z.eqb_eq, Nat.ltb_lt.
  destruct statuses; simpl; split; intros [H1 H2]; split; auto; try lia; congruence.
Qed.

(** C4: the verdict is [COLLECTING_DATA] absent (count zero) and at least
    one status present; on the two example histograms it is [true] and
    [false]; and a run of [check_data_status] is ready exactly when no
    sampled Unit reported ["COLLECTING_DATA"] and at least one reported a
    status, so a run where every sample errored is not ready. *)
Theorem readiness_verdict :
  (forall statuses, is_ready statuses = true <->
     PyDict.get_default "COLLECTING_DATA" statuses 0%Z = 0%Z /\ statuses <> []) /\
  is_ready [("COLLECTING_DATA", 0%Z); ("DONE", 3%Z)]%string = true /\
  is_ready [("COLLECTING_DATA", 1%Z); ("DONE", 2%Z)]%string = false /\
  (forall cl limit contracts month next_month ready statuses,
     check_data_status cl limit contracts month next_month = Ok (ready, statuses) ->
     exists samples obs,
       select_samples contracts = Ok samples /\
       observed_statuses cl limit month next_month samples = Ok obs /\
       statuses = fold_left tally obs [] /\
       (ready = true <-> count_occ string_dec obs "COLLECTING_DATA"%string = 0 /\ obs <> [])).
Proof.
  split; [exact is_ready_iff|]. split; [reflexivity|]. split; [reflexivity|].
  intros cl limit contracts month next_month ready statuses H.
  unfold check_data_status in H.
  destruct (select_samples contracts) as [samples|e] eqn:Hs; simpl in H; [|discriminate].
  rewrite probe_samples_observed in H.
  destruct (observed_statuses cl limit month next_month samples) as [obs|e] eqn:Ho;
    simpl in H; [|discriminate].
  injection H as <- <-. exists samples, obs.
  split; [reflexivity|]. split; [exact Ho|]. split; [reflexivity|].
  rewrite is_ready_iff, tally_count, <- tally_nil_iff. simpl.
  split; intros [H1 H2]; split; auto; lia.
Qed.

(** C10: on the empty list the probe raises [ZeroDivisionError] at
    [n // sample_count] instead of returning a verdict, and [main] reaches
    the probe only with a non-empty contract list, on which the sampling
    succeeds. *)
Theorem probe_requires_nonempty (cl : client) (limit : Z) (month next_month : string) :
  check_data_status cl limit [] month next_month =
    Raise "integer division or modulo by zero" /\
  (forall contracts r,
     main_status_stage cl contracts month next_month = StatusChecked r ->
     contracts <> [] /\ exists samples, select_samples contracts = Ok samples).
Proof.
  split; [reflexivity|].
  intros contracts r H. destruct contracts as [|c rest]; [discriminate|].
  split; [discriminate|].
  destruct (select_samples_shape (c :: rest) ltac:(discriminate)) as [_ [samples [Hs _]]].
  eauto.
Qed.

End ProbeFacts.

(* ----------------------------------------------------------------- *)
(** ** Collection: one Unit's traversal, and the merge *)

Module CollectFacts.
Import Akamai Billing.

Lemma collect_step_fields ag o :
  all_products (collect_step ag o) = PyDict.update (all_products ag) (products_contrib o) /\
  all_product_usage (collect_step ag o) = PyDict.update (all_product_usage ag) (usage_contrib o) /\
  all_rg_usage (collect_step ag o) = PyDict.update (all_rg_usage ag) (rg_contrib o) /\
  success_count (collect_step ag o) = success_count ag + success_contrib o /\
  failed (collect_step ag o) = failed ag ++ failure_contrib o.
Proof.
  destruct o as [c [r|e]]; unfold collect_step, products_contrib, usage_contrib,
    rg_contrib, success_contrib, failure_contrib; cbn [snd].
  - destruct (r_success r).
    + destruct (r_products r) as [pd|]; [destruct (listing_truthy pd)|];
        repeat split; cbn [all_products all_product_usage all_rg_usage success_count failed];
        try lia; try rewrite app_nil_r; reflexivity.
    + repeat split; cbn [all_products all_product_usage all_rg_usage success_count failed];
        try lia; reflexivity.
  - repeat split; cbn [all_products all_product_usage all_rg_usage success_count failed];
      try lia; reflexivity.
Qed.

(** The accumulators after folding completed futures: each field is fed by
    its own contribution of every future. *)
Lemma collect_fold_fields outs : forall ag,
  all_products (fold_left collect_step outs ag) =
    fold_left (fun d o => PyDict.update d (products_contrib o)) outs (all_products ag) /\
  all_product_usage (fold_left collect_step outs ag) =
    fold_left (fun d o => PyDict.update d (usage_contrib o)) outs (all_product_usage ag) /\
  all_rg_usage (fold_left collect_step outs ag) =
    fold_left (fun d o => PyDict.update d (rg_contrib o)) outs (all_rg_usage ag) /\
  success_count (fold_left collect_step outs ag) =
    success_count ag + list_sum (map success_contrib outs) /\
  failed (fold_left collect_step outs ag) = failed ag ++ flat_map failure_contrib outs.
Proof.
  induction outs as [|o outs IH]; intros ag.
  - cbn. rewrite app_nil_r. repeat split; try reflexivity; lia.
  - cbn [fold_left map flat_map].
    change (list_sum (success_contrib o :: map success_contrib outs))
      with (success_contrib o + list_sum (map success_contrib outs)).
    destruct (collect_step_fields ag o) as [H1 [H2 [H3 [H4 H5]]]].
    destruct (IH (collect_step ag o)) as [I1 [I2 [I3 [I4 I5]]]].
    rewrite I1, I2, I3, I4, I5, H1, H2, H3, H4, H5, app_assoc.
    repeat split; try reflexivity; lia.
Qed.

Lemma acquire_pos limit : (0 < limit)%Z -> acquire limit = Ok tt.
Proof. intros H. unfold acquire. destruct (Z.ltb_spec 0 limit); [reflexivity|lia]. Qed.

(** When no call raises, [rg_loop] adds the leaves of its groups in order. *)
Lemma rg_loop_spec cl limit u product_id product_name month :
  (0 < limit)%Z ->
  (forall rg_id, exists v,
     get_reporting_group_usage cl (account_id u) rg_id product_id month = Ok v) ->
  forall rgs acc,
  rg_loop cl limit u product_id product_name month rgs acc =
  Ok (PyDict.update acc (flat_map (rg_leaf cl u month product_id product_name) rgs)).
Proof.
  intros Hlim Hcall. induction rgs as [|g rgs IH]; intros acc; [reflexivity|].
  cbn [rg_loop flat_map]. unfold rg_leaf at 1.
  destruct (truthy_id (reportingGroupId g)) as [rg_id|]; [|apply IH].
  rewrite (acquire_pos limit Hlim). cbn [res_bind].
  destruct (Hcall rg_id) as [[rg_data err] Hc]. rewrite Hc. cbn [res_bind fst].
  destruct rg_data as [d|]; [destruct (usage_truthy d)|]; rewrite IH; reflexivity.
Qed.

(** When no call raises, [product_loop] adds the leaves of its products in
    order, to each dict separately. *)
Lemma product_loop_spec cl limit u month :
  (0 < limit)%Z -> leaf_calls_return cl u month ->
  forall ps pu rgu,
  product_loop cl limit u month ps pu rgu =
  Ok (PyDict.update pu (flat_map (pu_leaf cl u month) ps),
      PyDict.update rgu (flat_map (rg_leaves cl u month) ps)).
Proof.
  intros Hlim [Hpu Hrg]. induction ps as [|p ps IH]; intros pu rgu; [reflexivity|].
  cbn [product_loop flat_map]. rewrite !PyDictFacts.update_app.
  unfold pu_leaf at 1, rg_leaves at 1.
  destruct (truthy_id (productId p)) as [pid|]; [|apply IH].
  rewrite (acquire_pos limit Hlim). cbn [res_bind].
  destruct (Hpu pid) as [[ud uerr] Hc]. rewrite Hc. cbn [res_bind fst].
  rewrite (rg_loop_spec cl limit u pid _ month Hlim (fun rg_id => Hrg rg_id pid)).
  cbn [res_bind]. rewrite IH.
  destruct ud as [d|]; [destruct (usage_truthy d)|]; reflexivity.
Qed.

Lemma owned_keys_nil {V} c : @owned_keys V c [].
Proof. split; [constructor | intros k []]. Qed.

Lemma owned_keys_set {V} c x (v : V) d :
  owned_keys c d -> owned_keys c (PyDict.set (c ++ "_" ++ x)%string v d).
Proof.
  intros [Hnd Hk]. split.
  - apply PyDictFacts.nodup_keys_set. exact Hnd.
  - intros k Hin. apply PyDictFacts.in_keys_set in Hin as [->|Hin].
    + exists x. reflexivity.
    + apply Hk. exact Hin.
Qed.

Lemma rg_loop_owned cl limit u product_id product_name month rgs : forall acc acc',
  rg_loop cl limit u product_id product_name month rgs acc = Ok acc' ->
  owned_keys (contract_id u) acc -> owned_keys (contract_id u) acc'.
Proof.
  induction rgs as [|g rgs IH]; intros acc acc' H Hown.
  - cbn in H. injection H as <-. exact Hown.
  - cbn [rg_loop] in H.
    destruct (truthy_id (reportingGroupId g)) as [rg_id|]; [|exact (IH _ _ H Hown)].
    destruct (acquire limit); cbn [res_bind] in H; [|discriminate].
    destruct (get_reporting_group_usage cl (account_id u) rg_id product_id month)
      as [[o e]|e]; cbn [res_bind fst] in H; [|discriminate].
    apply (IH _ _ H).
    destruct o as [d|]; [destruct (usage_truthy d)|]; try exact Hown.
    apply owned_keys_set. exact Hown.
Qed.

Lemma product_loop_owned cl limit u month ps : forall pu rgu pu' rgu',
  product_loop cl limit u month ps pu rgu = Ok (pu', rgu') ->
  owned_keys (contract_id u) pu -> owned_keys (contract_id u) rgu ->
  owned_keys (contract_id u) pu' /\ owned_keys (contract_id u) rgu'.
Proof.
  induction ps as [|p ps IH]; intros pu rgu pu' rgu' H Hpu Hrgu.
  - cbn in H. injection H as <- <-. split; assumption.
  - cbn [product_loop] in H.
    destruct (truthy_id (productId p)) as [pid|]; [|exact (IH _ _ _ _ H Hpu Hrgu)].
    destruct (acquire limit); cbn [res_bind] in H; [|discriminate].
    destruct (get_product_usage cl (contract_id u) (account_id u) (Some pid) month)
      as [[o e]|e]; cbn [res_bind fst] in H; [|discriminate].
    destruct (rg_loop cl limit u pid (opt_default "Unknown" (productName p)) month
                (match reportingGroups p with Some l => l | None => [] end) rgu)
      as [rgu1|exc] eqn:Hrg; cbn [res_bind] in H; [|discriminate].
    apply (IH _ _ _ _ H).
    + destruct o as [d|]; [destruct (usage_truthy d)|]; try exact Hpu.
      apply owned_keys_set. exact Hpu.
    + exact (rg_loop_owned _ _ _ _ _ _ _ _ _ Hrg Hrgu).
Qed.

(** Whatever [process_contract] returns is about its own Unit, and both of
    its usage dicts are keyed under that Unit's contract id. *)
Lemma process_contract_owned cl limit u month next_month r :
  process_contract cl limit u month next_month = Ok r ->
  r_contract_id r = contract_id u /\ r_account_id r = account_id u /\
  r_company_name r = company_name u /\
  owned_keys (contract_id u) (r_product_usage r) /\
  owned_keys (contract_id u) (r_reporting_group_usage r).
Proof.
  unfold process_contract. intros H.
  destruct (acquire limit); cbn [res_bind] in H; [|discriminate].
  destruct (get_products cl (contract_id u) (account_id u) month next_month)
    as [[pdo err]|exc]; cbn [res_bind] in H; [|discriminate].
  destruct (truthy_id err) as [msg|].
  { injection H as <-. exact (conj eq_refl (conj eq_refl (conj eq_refl
      (conj (owned_keys_nil _) (owned_keys_nil _))))). }
  destruct pdo as [pd|].
  2:{ injection H as <-. exact (conj eq_refl (conj eq_refl (conj eq_refl
      (conj (owned_keys_nil _) (owned_keys_nil _))))). }
  destruct (negb (listing_truthy pd)).
  { injection H as <-. exact (conj eq_refl (conj eq_refl (conj eq_refl
      (conj (owned_keys_nil _) (owned_keys_nil _))))). }
  destruct (extract_products pd) as [|p ps].
  { injection H as <-. exact (conj eq_refl (conj eq_refl (conj eq_refl
      (conj (owned_keys_nil _) (owned_keys_nil _))))). }
  destruct (product_loop cl limit u month (p :: ps) [] []) as [[pu rgu]|exc] eqn:Hl;
    cbn [res_bind] in H; [|discriminate].
  injection H as <-. cbn.
  destruct (product_loop_owned _ _ _ _ _ _ _ _ _ Hl (owned_keys_nil _) (owned_keys_nil _))
    as [Hpu Hrgu].
  exact (conj eq_refl (conj eq_refl (conj eq_refl (conj Hpu Hrgu)))).
Qed.

Lemma no_underscore_cons ch s :
  no_underscore (String ch s) = true -> ch <> "_"%char /\ no_underscore s = true.
Proof.
  cbn. intros H. apply andb_prop in H as [H1 H2]. split; [|exact H2].
  intros ->. discriminate H1.
Qed.

(** ["c1_x" = "c2_y"] splits at the first ['_'] when neither [c1] nor [c2]
    has one. *)
Lemma underscore_prefix_inj c1 : forall c2 x y,
  no_underscore c1 = true -> no_underscore c2 = true ->
  (c1 ++ "_" ++ x)%string = (c2 ++ "_" ++ y)%string -> c1 = c2 /\ x = y.
Proof.
  induction c1 as [|a c1 IH]; intros [|b c2] x y H1 H2 H; cbn in H.
  - injection H as ->. split; reflexivity.
  - injection H as Hb _. apply no_underscore_cons in H2 as [H2 _]. congruence.
  - injection H as Ha _. apply no_underscore_cons in H1 as [H1 _]. congruence.
  - injection H as <- H.
    apply no_underscore_cons in H1 as [_ H1]. apply no_underscore_cons in H2 as [_ H2].
    destruct (IH c2 x y H1 H2 H) as [-> ->]. split; reflexivity.
Qed.

Lemma append_cancel_l (s a b : string) : (s ++ a)%string = (s ++ b)%string -> a = b.
Proof.
  induction s as [|ch s IH]; cbn; [exact id|]. intros H. injection H as H. exact (IH H).
Qed.

Lemma truthy_id_some o s : truthy_id o = Some s -> o = Some s.
Proof.
  destruct o as [s'|]; cbn; [|discriminate].
  destruct (truthy_str s'); [congruence|discriminate].
Qed.

(** Keys of Units with distinct owners never meet. *)
Lemma nodup_flat_map_owned (P : string -> string -> Prop) (f : contract -> list string) l :
  NoDup (map contract_id l) ->
  (forall c, In c l -> NoDup (f c)) ->
  (forall c k, In c l -> In k (f c) -> P (contract_id c) k) ->
  (forall c1 c2 k, In c1 l -> In c2 l -> P (contract_id c1) k -> P (contract_id c2) k ->
     contract_id c1 = contract_id c2) ->
  NoDup (flat_map f l).
Proof.
  induction l as [|c l IH]; intros Hnd Hf Hown Hinj; [constructor|].
  cbn [map flat_map] in *. apply NoDup_cons_iff in Hnd as [Hnin Hnd].
  apply NoDup_app.
  - apply Hf. left. reflexivity.
  - apply IH; [exact Hnd| | |].
    + intros c' Hc'. apply Hf. right. exact Hc'.
    + intros c' k Hc' Hk. apply Hown; [right|]; assumption.
    + intros c1 c2 k H1 H2. apply Hinj; right; assumption.
  - intros k Hk Hk'. apply in_flat_map in Hk' as [c' [Hc' Hk']].
    apply Hnin.
    rewrite (Hinj c c' k (or_introl eq_refl) (or_intror Hc')
               (Hown c k (or_introl eq_refl) Hk) (Hown c' k (or_intror Hc') Hk')).
    apply in_map. exact Hc'.
Qed.

Lemma flat_map_map_comp {A B C} (f : B -> list C) (g : A -> B) l :
  flat_map f (map g l) = flat_map (fun x => f (g x)) l.
Proof. induction l as [|a l IH]; cbn; [reflexivity|]. rewrite IH. reflexivity. Qed.

(** What one worker hands to the merge is keyed under its own Unit. *)
Lemma contrib_owned cl limit month next_month c :
  let o := (c, process_contract cl limit c month next_month) in
  owned_keys (contract_id c) (usage_contrib o) /\
  owned_keys (contract_id c) (rg_contrib o) /\
  NoDup (PyDict.keys (products_contrib o)) /\
  (forall k, In k (PyDict.keys (products_contrib o)) -> k = contract_id c).
Proof.
  cbv zeta. unfold usage_contrib, rg_contrib, products_contrib. cbn [snd].
  destruct (process_contract cl limit c month next_month) as [r|e] eqn:E.
  2:{ exact (conj (owned_keys_nil _) (conj (owned_keys_nil _)
        (conj (NoDup_nil _) (fun k H => False_ind _ H)))). }
  destruct (process_contract_owned _ _ _ _ _ _ E) as [Hc [_ [_ [Hpu Hrg]]]].
  destruct (r_success r).
  2:{ exact (conj (owned_keys_nil _) (conj (owned_keys_nil _)
        (conj (NoDup_nil _) (fun k H => False_ind _ H)))). }
  refine (conj Hpu (conj Hrg _)).
  destruct (r_products r) as [pd|]; [destruct (listing_truthy pd)|];
    cbn [PyDict.keys map fst].
  - split; [repeat constructor; intros []|]. intros k [<-|[]]. exact Hc.
  - exact (conj (NoDup_nil _) (fun k H => False_ind _ H)).
  - exact (conj (NoDup_nil _) (fun k H => False_ind _ H)).
Qed.

(** With distinct contract ids free of ['_'], no two workers contribute the
    same key to any of the three merged dicts. *)
Lemma outcomes_nodup cl limit month next_month completion :
  NoDup (map contract_id completion) ->
  (forall c, In c completion -> no_underscore (contract_id c) = true) ->
  let outs := map (fun c => (c, process_contract cl limit c month next_month)) completion in
  NoDup (flat_map (fun o => PyDict.keys (products_contrib o)) outs) /\
  NoDup (flat_map (fun o => PyDict.keys (usage_contrib o)) outs) /\
  NoDup (flat_map (fun o => PyDict.keys (rg_contrib o)) outs).
Proof.
  intros Hnd Hu. cbv zeta. rewrite !flat_map_map_comp.
  assert (Hinj : forall c1 c2 k, In c1 completion -> In c2 completion ->
            (exists x, k = (contract_id c1 ++ "_" ++ x)%string) ->
            (exists x, k = (contract_id c2 ++ "_" ++ x)%string) ->
            contract_id c1 = contract_id c2).
  { intros c1 c2 k H1 H2 [x ->] [y Hy].
    exact (proj1 (underscore_prefix_inj _ _ _ _ (Hu c1 H1) (Hu c2 H2) Hy)). }
  split; [|split].
  - apply (nodup_flat_map_owned (fun a k => k = a)); [exact Hnd| | |].
    + intros c _. exact (proj1 (proj2 (proj2 (contrib_owned cl limit month next_month c)))).
    + intros c k _ Hk. exact (proj2 (proj2 (proj2 (contrib_owned cl limit month next_month c))) k Hk).
    + intros c1 c2 k _ _ -> ->. reflexivity.
  - apply (nodup_flat_map_owned (fun a k => exists x, k = (a ++ "_" ++ x)%string));
      [exact Hnd| | |exact Hinj].
    + intros c _. exact (proj1 (proj1 (contrib_owned cl limit month next_month c))).
    + intros c k _ Hk. exact (proj2 (proj1 (contrib_owned cl limit month next_month c)) k Hk).
  - apply (nodup_flat_map_owned (fun a k => exists x, k = (a ++ "_" ++ x)%string));
      [exact Hnd| | |exact Hinj].
    + intros c _. exact (proj1 (proj1 (proj2 (contrib_owned cl limit month next_month c)))).
    + intros c k _ Hk. exact (proj2 (proj1 (proj2 (contrib_owned cl limit month next_month c))) k Hk).
Qed.

Lemma rate_limit_pos : (0 < RATE_LIMIT_PER_MINUTE)%Z.
Proof. reflexivity. Qed.

(** A Unit whose listing has products, when no later call raises. *)
Lemma process_contract_listed cl u month next_month pd err :
  get_products cl (contract_id u) (account_id u) month next_month = Ok (Some pd, err) ->
  truthy_id err = None -> listing_truthy pd = true -> extract_products pd <> [] ->
  leaf_calls_return cl u month ->
  process_contract cl RATE_LIMIT_PER_MINUTE u month next_month =
  Ok (mk_result (contract_id u) (account_id u) (company_name u) true (Some pd)
        (PyDict.update [] (flat_map (pu_leaf cl u month) (extract_products pd)))
        (PyDict.update [] (flat_map (rg_leaves cl u month) (extract_products pd))) None).
Proof.
  intros Hget Herr Htr Hne Hleaf. unfold process_contract.
  rewrite (acquire_pos _ rate_limit_pos). cbn [res_bind].
  rewrite Hget. cbn [res_bind]. rewrite Herr, Htr. cbn [negb].
  destruct (extract_products pd) as [|p ps] eqn:E; [exfalso; exact (Hne eq_refl)|].
  rewrite (product_loop_spec cl _ u month rate_limit_pos Hleaf). reflexivity.
Qed.

Lemma pu_leaf_keys cl u month p k :
  In k (PyDict.keys (pu_leaf cl u month p)) ->
  exists pid, productId p = Some pid /\ k = product_key (contract_id u) pid.
Proof.
  unfold pu_leaf. destruct (truthy_id (productId p)) as [pid|] eqn:E; [|intros []].
  destruct (get_product_usage cl (contract_id u) (account_id u) (Some pid) month)
    as [[[d|] e]|e]; try (intros []).
  destruct (usage_truthy d); [|intros []].
  cbn [PyDict.keys map fst]. intros [<-|[]].
  exists pid. split; [exact (truthy_id_some _ _ E)|reflexivity].
Qed.

Lemma pu_leaf_nodup cl u month p : NoDup (PyDict.keys (pu_leaf cl u month p)).
Proof.
  unfold pu_leaf. destruct (truthy_id (productId p)) as [pid|]; [|constructor].
  destruct (get_product_usage cl (contract_id u) (account_id u) (Some pid) month)
    as [[[d|] e]|e]; try constructor.
  destruct (usage_truthy d); repeat constructor. intros [].
Qed.

Lemma product_key_inj c a b : product_key c a = product_key c b -> a = b.
Proof.
  unfold product_key. intros H. apply append_cancel_l in H. injection H as H. exact H.
Qed.

(** Products with distinct ids give distinct usage keys. *)
Lemma pu_leaves_nodup cl u month ps :
  NoDup (map productId ps) -> NoDup (PyDict.keys (flat_map (pu_leaf cl u month) ps)).
Proof.
  induction ps as [|p ps IH]; intros Hnd; [constructor|].
  cbn [map flat_map] in *. apply NoDup_cons_iff in Hnd as [Hnin Hnd].
  rewrite PyDictFacts.keys_app. apply NoDup_app; [apply pu_leaf_nodup|exact (IH Hnd)|].
  intros k Hk Hk'. apply pu_leaf_keys in Hk as [pid [Hp ->]].
  apply PyDictFacts.in_keys_flat_map in Hk' as [p' [Hp' Hk']].
  apply pu_leaf_keys in Hk' as [pid' [Hp'' Heq]].
  apply product_key_inj in Heq as ->.
  apply Hnin. rewrite Hp, <- Hp''. apply in_map. exact Hp'.
Qed.

(** A failed Unit adds only its failure entry. *)
Lemma collect_drop_failed A o B :
  products_contrib o = [] -> usage_contrib o = [] -> rg_contrib o = [] ->
  success_contrib o = 0 ->
  let ag := fold_left collect_step (A ++ o :: B) empty_aggregate in
  let ag' := fold_left collect_step (A ++ B) empty_aggregate in
  all_products ag = all_products ag' /\ all_product_usage ag = all_product_usage ag' /\
  all_rg_usage ag = all_rg_usage ag' /\ success_count ag = success_count ag' /\
  failed ag = flat_map failure_contrib A ++ failure_contrib o ++ flat_map failure_contrib B /\
  failed ag' = flat_map failure_contrib A ++ flat_map failure_contrib B.
Proof.
  intros Hp Hu Hr Hs. cbv zeta.
  destruct (collect_fold_fields (A ++ o :: B) empty_aggregate) as [P1 [U1 [R1 [S1 F1]]]].
  destruct (collect_fold_fields (A ++ B) empty_aggregate) as [P2 [U2 [R2 [S2 F2]]]].
  rewrite P1, U1, R1, S1, F1, P2, U2, R2, S2, F2, !fold_left_app. cbn [fold_left].
  rewrite Hp, Hu, Hr, !map_app, !list_sum_app, !flat_map_app. cbn [map flat_map].
  change (list_sum (success_contrib o :: map success_contrib B))
    with (success_contrib o + list_sum (map success_contrib B)).
  rewrite Hs. refine (conj eq_refl (conj eq_refl (conj eq_refl (conj _ (conj eq_refl eq_refl))))).
  lia.
Qed.

Lemma outs_owned cl limit month next_month completion o :
  In o (map (fun c => (c, process_contract cl limit c month next_month)) completion) ->
  NoDup (PyDict.keys (products_contrib o)) /\ NoDup (PyDict.keys (usage_contrib o)) /\
  NoDup (PyDict.keys (rg_contrib o)).
Proof.
  intros Ho. apply in_map_iff in Ho as [c [<- _]].
  destruct (contrib_owned cl limit month next_month c) as [[U _] [[R _] [P _]]].
  exact (conj P (conj U R)).
Qed.

Lemma list_sum_map_ones {A} (g : A -> nat) l :
  (forall x, In x l -> g x = 1) -> list_sum (map g l) = length l.
Proof.
  induction l as [|x l IH]; intros H; [reflexivity|].
  change (list_sum (map g (x :: l))) with (g x + list_sum (map g l)).
  rewrite H, IH; [reflexivity| |left; reflexivity].
  intros y Hy. apply H. right. exact Hy.
Qed.

Lemma length_flat_map_const {A B} (f : A -> list B) n l :
  (forall x, In x l -> length (f x) = n) -> length (flat_map f l) = n * length l.
Proof.
  induction l as [|x l IH]; intros H; cbn [flat_map length]; [lia|].
  rewrite length_app, H, IH; [lia| |left; reflexivity].
  intros y Hy. apply H. right. exact Hy.
Qed.

Lemma flat_map_all_nil {A B} (f : A -> list B) l :
  (forall x, In x l -> f x = []) -> flat_map f l = [].
Proof.
  induction l as [|x l IH]; intros H; [reflexivity|]. cbn [flat_map].
  rewrite H, IH; [reflexivity| |left; reflexivity].
  intros y Hy. apply H. right. exact Hy.
Qed.

Lemma list_sum_perm l l' : Permutation l l' -> list_sum l = list_sum l'.
Proof.
  unfold list_sum.
  induction 1 as [| x l l' _ IH | x y l | l l' l'' _ IH1 _ IH2]; cbn [fold_right]; lia.
Qed.

(** A Unit of the scenario of C8: listing with two products of distinct
    ids, every query answered with data. *)
Lemma two_products_result cl u month next_month :
  (exists pd err p1 p2 id1 id2,
     get_products cl (contract_id u) (account_id u) month next_month = Ok (Some pd, err) /\
     truthy_id err = None /\ listing_truthy pd = true /\ extract_products pd = [p1; p2] /\
     truthy_id (productId p1) = Some id1 /\ truthy_id (productId p2) = Some id2 /\ id1 <> id2) ->
  (forall pid, exists d e,
     get_product_usage cl (contract_id u) (account_id u) (Some pid) month = Ok (Some d, e) /\
     usage_truthy d = true) ->
  (forall rg_id pid, exists v,
     get_reporting_group_usage cl (account_id u) rg_id pid month = Ok v) ->
  exists r, process_contract cl RATE_LIMIT_PER_MINUTE u month next_month = Ok r /\
    r_success r = true /\ length (PyDict.keys (r_product_usage r)) = 2.
Proof.
  intros [pd [err [p1 [p2 [id1 [id2 [Hget [Herr [Htr [Hx [H1 [H2 Hne]]]]]]]]]]]] Hus Hrg.
  assert (Hleaf : leaf_calls_return cl u month).
  { split; [|exact Hrg]. intros pid. destruct (Hus pid) as [d [e [G _]]]. eexists. exact G. }
  eexists. split.
  { apply (process_contract_listed cl u month next_month pd err Hget Herr Htr);
      [rewrite Hx; discriminate|exact Hleaf]. }
  split; [reflexivity|]. cbn [r_product_usage].
  destruct (Hus id1) as [d1 [e1 [G1 T1]]]. destruct (Hus id2) as [d2 [e2 [G2 T2]]].
  rewrite Hx. cbn [flat_map]. unfold pu_leaf at 1 2.
  rewrite H1, H2, G1, G2, T1, T2. cbn [app PyDict.update fold_left PyDict.set fst snd].
  destruct (String.eqb_spec (product_key (contract_id u) id2) (product_key (contract_id u) id1))
    as [E|_].
  - apply product_key_inj in E. congruence.
  - reflexivity.
Qed.

(** C2 (amended).  A listing answered with an error message, or with no
    data ([None] or an empty object), makes [process_contract] return a
    failed result with that reason and no usage records; a listing that
    parses but has no products is a success without records.  In the
    collection, a Unit whose worker failed, by a failed result or by an
    exception, contributes only its failure entry, with the reason: all
    three merged dicts and the success count are exactly those of the run
    without that Unit, and the failure ledger is that run's with the entry
    inserted at the Unit's place. *)
Theorem listing_failure_isolated cl month next_month pre u post :
  (forall pdo err,
     get_products cl (contract_id u) (account_id u) month next_month = Ok (pdo, err) ->
     (forall e, truthy_id err = Some e ->
        process_contract cl RATE_LIMIT_PER_MINUTE u month next_month =
        Ok (mk_result (contract_id u) (account_id u) (company_name u) false None [] []
              (Some (LISTING_FAILED e)))) /\
     (truthy_id err = None -> (forall pd, pdo = Some pd -> listing_truthy pd = false) ->
        process_contract cl RATE_LIMIT_PER_MINUTE u month next_month =
        Ok (mk_result (contract_id u) (account_id u) (company_name u) false None [] []
              (Some NO_PRODUCT_DATA))) /\
     (forall pd, truthy_id err = None -> pdo = Some pd -> listing_truthy pd = true ->
        extract_products pd = [] ->
        process_contract cl RATE_LIMIT_PER_MINUTE u month next_month =
        Ok (mk_result (contract_id u) (account_id u) (company_name u) true (Some pd) [] []
              (Some NO_PRODUCT_IN_USE)))) /\
  (forall reason,
     (process_contract cl RATE_LIMIT_PER_MINUTE u month next_month = Raise reason \/
      exists r, process_contract cl RATE_LIMIT_PER_MINUTE u month next_month = Ok r /\
                r_success r = false /\ r_error r = Some reason) ->
     let ag := collect_in_order cl month next_month (pre ++ u :: post) in
     let ag' := collect_in_order cl month next_month (pre ++ post) in
     all_products ag = all_products ag' /\ all_product_usage ag = all_product_usage ag' /\
     all_rg_usage ag = all_rg_usage ag' /\ success_count ag = success_count ag' /\
     exists F1 F2, failed ag' = F1 ++ F2 /\
       failed ag = F1 ++ mk_failure (contract_id u) (company_name u) (Some reason) :: F2).
Proof.
  split.
  - intros pdo err Hget. unfold process_contract.
    rewrite (acquire_pos _ rate_limit_pos). cbn [res_bind]. rewrite Hget. cbn [res_bind].
    split; [|split].
    + intros e He. rewrite He. reflexivity.
    + intros He Hf. rewrite He. destruct pdo as [pd|]; [|reflexivity].
      rewrite (Hf pd eq_refl). reflexivity.
    + intros pd He -> Ht Hx. rewrite He, Ht. cbn [negb]. rewrite Hx. reflexivity.
  - intros reason Hfail. cbv zeta. unfold collect_in_order. rewrite !map_app. cbn [map].
    assert (Hc : products_contrib (u, process_contract cl RATE_LIMIT_PER_MINUTE u month next_month) = [] /\
                 usage_contrib (u, process_contract cl RATE_LIMIT_PER_MINUTE u month next_month) = [] /\
                 rg_contrib (u, process_contract cl RATE_LIMIT_PER_MINUTE u month next_month) = [] /\
                 success_contrib (u, process_contract cl RATE_LIMIT_PER_MINUTE u month next_month) = 0 /\
                 failure_contrib (u, process_contract cl RATE_LIMIT_PER_MINUTE u month next_month) =
                   [mk_failure (contract_id u) (company_name u) (Some reason)]).
    { unfold products_contrib, usage_contrib, rg_contrib, success_contrib, failure_contrib.
      cbn [snd]. destruct Hfail as [Hr|[r [Hr [Hs He]]]]; rewrite Hr.
      - repeat split; reflexivity.
      - rewrite Hs. destruct (process_contract_owned _ _ _ _ _ _ Hr) as [Hcid [_ [Hn _]]].
        rewrite Hcid, Hn, He. repeat split; reflexivity. }
    destruct Hc as [Hp [Hu [Hrg [Hs Hf]]]].
    destruct (collect_drop_failed
                (map (fun c => (c, process_contract cl RATE_LIMIT_PER_MINUTE c month next_month)) pre)
                _
                (map (fun c => (c, process_contract cl RATE_LIMIT_PER_MINUTE c month next_month)) post)
                Hp Hu Hrg Hs) as [E1 [E2 [E3 [E4 [E5 E6]]]]].
    refine (conj E1 (conj E2 (conj E3 (conj E4 _)))).
    eexists. eexists. split; [exact E6|]. rewrite E5, Hf. reflexivity.
Qed.

(** C3 (amended).  When the listing of a Unit has products and no later call
    raises, the Unit is successful with no error, whatever the leaves
    return; its usage dict is the leaves' records assigned in traversal
    order, a leaf whose query failed adding none, and likewise its
    reporting-group dict.  When the product ids of the listing are distinct,
    the usage dict holds exactly one record per succeeding leaf, in order;
    a product id listed twice is queried twice and kept once. *)
Theorem partial_leaf_tolerance cl u month next_month pd err :
  get_products cl (contract_id u) (account_id u) month next_month = Ok (Some pd, err) ->
  truthy_id err = None -> listing_truthy pd = true -> extract_products pd <> [] ->
  leaf_calls_return cl u month ->
  exists r, process_contract cl RATE_LIMIT_PER_MINUTE u month next_month = Ok r /\
    r_success r = true /\ r_error r = None /\
    r_product_usage r = PyDict.update [] (flat_map (pu_leaf cl u month) (extract_products pd)) /\
    r_reporting_group_usage r =
      PyDict.update [] (flat_map (rg_leaves cl u month) (extract_products pd)) /\
    (NoDup (map productId (extract_products pd)) ->
     r_product_usage r = flat_map (pu_leaf cl u month) (extract_products pd)).
Proof.
  intros Hget Herr Htr Hne Hleaf.
  eexists. split; [exact (process_contract_listed cl u month next_month pd err Hget Herr Htr Hne Hleaf)|].
  cbn [r_success r_error r_product_usage r_reporting_group_usage].
  refine (conj eq_refl (conj eq_refl (conj eq_refl (conj eq_refl _)))).
  intros Hnd. rewrite PyDictFacts.update_fresh; [reflexivity|].
  exact (pu_leaves_nodup cl u month _ Hnd).
Qed.

(** C7 (amended).  For a run over Units with distinct contract ids that
    contain no ['_']: each worker's usage and reporting-group keys are
    distinct and all start with its own contract id and ['_']; no key is
    contributed by two workers to any of the three merged dicts; each merged
    dict's keys are the concatenation of the contributed keys, and every
    contributed key keeps the value its worker gave it. *)
Theorem composite_keys_partitioned cl month next_month completion :
  NoDup (map contract_id completion) ->
  (forall c, In c completion -> no_underscore (contract_id c) = true) ->
  let outs := map (fun c => (c, process_contract cl RATE_LIMIT_PER_MINUTE c month next_month))
                  completion in
  let ag := collect_in_order cl month next_month completion in
  (forall c, In c completion ->
     owned_keys (contract_id c)
       (usage_contrib (c, process_contract cl RATE_LIMIT_PER_MINUTE c month next_month)) /\
     owned_keys (contract_id c)
       (rg_contrib (c, process_contract cl RATE_LIMIT_PER_MINUTE c month next_month))) /\
  NoDup (flat_map (fun o => PyDict.keys (usage_contrib o)) outs) /\
  NoDup (flat_map (fun o => PyDict.keys (rg_contrib o)) outs) /\
  NoDup (flat_map (fun o => PyDict.keys (products_contrib o)) outs) /\
  PyDict.keys (all_product_usage ag) = flat_map (fun o => PyDict.keys (usage_contrib o)) outs /\
  PyDict.keys (all_rg_usage ag) = flat_map (fun o => PyDict.keys (rg_contrib o)) outs /\
  PyDict.keys (all_products ag) = flat_map (fun o => PyDict.keys (products_contrib o)) outs /\
  (forall o k, In o outs -> In k (PyDict.keys (usage_contrib o)) ->
     PyDict.get k (all_product_usage ag) = PyDict.get k (usage_contrib o)) /\
  (forall o k, In o outs -> In k (PyDict.keys (rg_contrib o)) ->
     PyDict.get k (all_rg_usage ag) = PyDict.get k (rg_contrib o)) /\
  (forall o k, In o outs -> In k (PyDict.keys (products_contrib o)) ->
     PyDict.get k (all_products ag) = PyDict.get k (products_contrib o)).
Proof.
  intros Hnd Hu. cbv zeta.
  pose proof (outcomes_nodup cl RATE_LIMIT_PER_MINUTE month next_month completion Hnd Hu) as Hno.
  cbv zeta in Hno. destruct Hno as [Np [Nu Nr]].
  unfold collect_in_order.
  destruct (collect_fold_fields
              (map (fun c => (c, process_contract cl RATE_LIMIT_PER_MINUTE c month next_month))
                   completion) empty_aggregate) as [P [U [R _]]].
  rewrite P, U, R. cbn [all_products all_product_usage all_rg_usage empty_aggregate].
  split.
  { intros c _. destruct (contrib_owned cl RATE_LIMIT_PER_MINUTE month next_month c) as [O1 [O2 _]].
    exact (conj O1 O2). }
  split; [exact Nu|]. split; [exact Nr|]. split; [exact Np|].
  split; [rewrite (PyDictFacts.merge_keys usage_contrib); [reflexivity|exact Nu]|].
  split; [rewrite (PyDictFacts.merge_keys rg_contrib); [reflexivity|exact Nr]|].
  split; [rewrite (PyDictFacts.merge_keys products_contrib); [reflexivity|exact Np]|].
  split; [|split].
  - intros o k Ho Hk. apply (PyDictFacts.merge_get_owner usage_contrib); try assumption.
    intros o' Ho'. exact (proj1 (proj2 (outs_owned _ _ _ _ _ _ Ho'))).
  - intros o k Ho Hk. apply (PyDictFacts.merge_get_owner rg_contrib); try assumption.
    intros o' Ho'. exact (proj2 (proj2 (outs_owned _ _ _ _ _ _ Ho'))).
  - intros o k Ho Hk. apply (PyDictFacts.merge_get_owner products_contrib); try assumption.
    intros o' Ho'. exact (proj1 (outs_owned _ _ _ _ _ _ Ho')).
Qed.

(** C8 (amended).  For a run over 10 Units with distinct contract ids that
    contain no ['_'], each listing (without error) two products of distinct
    ids, every usage query answering with data and every reporting-group
    query returning: the success count is 10, the merged usage dict has
    exactly 20 keys, and the failure ledger is empty. *)
Theorem ten_units_twenty_keys cl contracts month next_month ag :
  length contracts = 10 ->
  NoDup (map contract_id contracts) ->
  (forall u, In u contracts -> no_underscore (contract_id u) = true) ->
  (forall u, In u contracts -> exists pd err p1 p2 id1 id2,
     get_products cl (contract_id u) (account_id u) month next_month = Ok (Some pd, err) /\
     truthy_id err = None /\ listing_truthy pd = true /\ extract_products pd = [p1; p2] /\
     truthy_id (productId p1) = Some id1 /\ truthy_id (productId p2) = Some id2 /\ id1 <> id2) ->
  (forall u pid, In u contracts -> exists d e,
     get_product_usage cl (contract_id u) (account_id u) (Some pid) month = Ok (Some d, e) /\
     usage_truthy d = true) ->
  (forall u rg_id pid, In u contracts -> exists v,
     get_reporting_group_usage cl (account_id u) rg_id pid month = Ok v) ->
  collect_all cl contracts month next_month ag ->
  success_count ag = 10 /\ length (PyDict.keys (all_product_usage ag)) = 20 /\ failed ag = [].
Proof.
  intros Hlen Hnd Hu Hlist Husage Hrg [completion [Hperm ->]].
  assert (Hin : forall c, In c completion -> In c contracts).
  { intros c Hc. exact (Permutation_in _ (Permutation_sym Hperm) Hc). }
  assert (Hndc : NoDup (map contract_id completion)).
  { exact (Permutation_NoDup (Permutation_map contract_id Hperm) Hnd). }
  assert (Hone : forall c, In c completion ->
            exists r, process_contract cl RATE_LIMIT_PER_MINUTE c month next_month = Ok r /\
                      r_success r = true /\ length (PyDict.keys (r_product_usage r)) = 2).
  { intros c Hc. apply two_products_result.
    - exact (Hlist c (Hin c Hc)).
    - intros pid. exact (Husage c pid (Hin c Hc)).
    - intros rg_id pid. exact (Hrg c rg_id pid (Hin c Hc)). }
  pose proof (outcomes_nodup cl RATE_LIMIT_PER_MINUTE month next_month completion Hndc
                (fun c Hc => Hu c (Hin c Hc))) as Hno.
  cbv zeta in Hno. destruct Hno as [_ [Nu _]].
  rewrite (Permutation_length Hperm) in Hlen.
  unfold collect_in_order.
  destruct (collect_fold_fields
              (map (fun c => (c, process_contract cl RATE_LIMIT_PER_MINUTE c month next_month))
                   completion) empty_aggregate) as [_ [U [_ [S F]]]].
  rewrite U, S, F. cbn [all_product_usage success_count failed empty_aggregate].
  rewrite (PyDictFacts.merge_keys usage_contrib) by exact Nu.
  refine (conj _ (conj _ _)).
  - rewrite map_map, list_sum_map_ones; [cbn [Nat.add]; exact Hlen|].
    intros c Hc. destruct (Hone c Hc) as [r [Hr [Hs _]]].
    unfold success_contrib. cbn [snd]. rewrite Hr, Hs. reflexivity.
  - cbn [PyDict.keys map app]. rewrite flat_map_map_comp.
    rewrite (length_flat_map_const _ 2); [rewrite Hlen; reflexivity|].
    intros c Hc. destruct (Hone c Hc) as [r [Hr [Hs Hl]]].
    unfold usage_contrib. cbn [snd]. rewrite Hr, Hs. exact Hl.
  - cbn [app]. apply flat_map_all_nil. intros o Ho. apply in_map_iff in Ho as [c [<- Hc]].
    destruct (Hone c Hc) as [r [Hr [Hs _]]].
    unfold failure_contrib. rewrite Hr, Hs. reflexivity.
Qed.

(** C9 (amended).  Over Units with distinct contract ids that contain no
    ['_'], any two runs of [collect_all] on the same client, whatever the
    completion orders, give the same lookups in all three merged dicts, the
    same success count, and failure ledgers that are permutations of each
    other. *)
Theorem collect_order_independent cl contracts month next_month ag1 ag2 :
  NoDup (map contract_id contracts) ->
  (forall u, In u contracts -> no_underscore (contract_id u) = true) ->
  collect_all cl contracts month next_month ag1 ->
  collect_all cl contracts month next_month ag2 ->
  (forall k, PyDict.get k (all_products ag1) = PyDict.get k (all_products ag2)) /\
  (forall k, PyDict.get k (all_product_usage ag1) = PyDict.get k (all_product_usage ag2)) /\
  (forall k, PyDict.get k (all_rg_usage ag1) = PyDict.get k (all_rg_usage ag2)) /\
  success_count ag1 = success_count ag2 /\ Permutation (failed ag1) (failed ag2).
Proof.
  intros Hnd Hu [c1 [P1 ->]] [c2 [P2 ->]].
  set (f := fun c => (c, process_contract cl RATE_LIMIT_PER_MINUTE c month next_month)).
  assert (Hperm : Permutation (map f c1) (map f c2)).
  { apply Permutation_map. exact (perm_trans (Permutation_sym P1) P2). }
  assert (Hndc : NoDup (map contract_id c1)).
  { exact (Permutation_NoDup (Permutation_map contract_id P1) Hnd). }
  pose proof (outcomes_nodup cl RATE_LIMIT_PER_MINUTE month next_month c1 Hndc
                (fun c Hc => Hu c (Permutation_in _ (Permutation_sym P1) Hc))) as Hno.
  cbv zeta in Hno. fold f in Hno. destruct Hno as [Np [Nu Nr]].
  unfold collect_in_order. fold f.
  destruct (collect_fold_fields (map f c1) empty_aggregate) as [A1 [B1 [C1 [D1 E1]]]].
  destruct (collect_fold_fields (map f c2) empty_aggregate) as [A2 [B2 [C2 [D2 E2]]]].
  rewrite A1, B1, C1, D1, E1, A2, B2, C2, D2, E2.
  refine (conj _ (conj _ (conj _ (conj _ _)))).
  - exact (PyDictFacts.merge_perm products_contrib _ _ Hperm Np _).
  - exact (PyDictFacts.merge_perm usage_contrib _ _ Hperm Nu _).
  - exact (PyDictFacts.merge_perm rg_contrib _ _ Hperm Nr _).
  - f_equal. apply list_sum_perm. apply Permutation_map. exact Hperm.
  - apply Permutation_app_head. apply (Permutation_flat_map _). exact Hperm.
Qed.

End CollectFacts.

(* ----------------------------------------------------------------- *)
(** ** RateLimiter: the sleep of a full window *)

Module RateLimiterExtras.
Import RateLimiter.

(** X1: when a pass through the lock computes a [sleep_time], it is
    positive, so the [if sleep_time > 0] guard always holds and the thread
    sleeps before retrying.  It is at most 60 when no recorded timestamp lies
    after the current clock reading. *)
Theorem sleep_time_positive rl now s rl' :
  attempt rl now = (Sleep s, rl') ->
  (0 < s)%Z /\ ((forall x, In x (request_times rl) -> x <= now) -> s <= 60)%Z.
Proof.
  unfold attempt. cbv zeta.
  destruct (Z.of_nat (length (prune now (request_times rl))) <? max_per_minute rl)%Z;
    [discriminate|].
  assert (Hin : forall t0, In t0 (prune now (request_times rl)) ->
            In t0 (request_times rl) /\ (now - t0 < 60)%Z).
  { intros t0 Ht0. unfold prune in Ht0. apply filter_In in Ht0 as [Hx Hlt].
    split; [exact Hx|]. apply Z.ltb_lt. exact Hlt. }
  destruct (prune now (request_times rl)) as [|t0 ts]; [discriminate|].
  intros H. assert (Hs : s = (60 - (now - t0))%Z) by congruence. subst s.
  destruct (Hin t0 (or_introl eq_refl)) as [Hx Hlt].
  split; [lia|]. intros Hle. specialize (Hle t0 Hx). lia.
Qed.

(** X2: a thread that was told to sleep [s] and retries at a clock reading
    at least [now + s], with no other acquisition in between, is admitted:
    the oldest timestamp has left the window.  The hypothesis on the length
    is the invariant of every limiter built by [RateLimiter(N)]
    ([RateLimiterFacts.run_invariant]). *)
Theorem retry_after_sleep_acquires rl now s rl' now' :
  attempt rl now = (Sleep s, rl') ->
  (Z.of_nat (length (request_times rl)) <= max_per_minute rl)%Z ->
  (now + s <= now')%Z ->
  fst (attempt rl' now') = Acquired.
Proof.
  intros H Hlen Hnow. revert H. unfold attempt. cbv zeta.
  pose proof (RateLimiterFacts.prune_length_le now (request_times rl)) as Hp.
  revert Hp.
  destruct (Z.ltb_spec (Z.of_nat (length (prune now (request_times rl)))) (max_per_minute rl))
    as [_|Hfull]; [discriminate|].
  revert Hfull.
  destruct (prune now (request_times rl)) as [|t0 rest]; [discriminate|].
  intros Hfull Hp H.
  assert (Hs : s = (60 - (now - t0))%Z) by congruence.
  assert (Hr : rl' = mk (max_per_minute rl) (t0 :: rest)) by congruence.
  subst s rl'. cbn [max_per_minute request_times].
  unfold prune at 1. cbn [filter].
  destruct (Z.ltb_spec (now' - t0) 60) as [Hlt|_]; [lia|].
  fold (prune now' rest).
  pose proof (RateLimiterFacts.prune_length_le now' rest) as Hp'.
  cbn [length] in Hp, Hfull.
  destruct (Z.ltb_spec (Z.of_nat (length (prune now' rest))) (max_per_minute rl));
    [reflexivity|lia].
Qed.

End RateLimiterExtras.

(* ----------------------------------------------------------------- *)
(** ** Billing month and next month *)

Module MonthsFacts.
Import Months.
Local Open Scope string_scope.

Lemma string_of_uint_no_dash d : count_char "-" (NilEmpty.string_of_uint d) = 0.
Proof. induction d; simpl; try rewrite IHd; reflexivity. Qed.

Lemma nilzero_no_dash d : count_char "-" (NilZero.string_of_uint d) = 0.
Proof. destruct d; try reflexivity; apply string_of_uint_no_dash. Qed.

(** [int(f"{z}") == z] for [z >= 0], and the text has no ['-']. *)
Lemma str_of_Z_nonneg z : (0 <= z)%Z ->
  exists d, NilZero.uint_of_string (str_of_Z z) = Some d /\ Z.of_uint d = z /\
            count_char "-" (str_of_Z z) = 0.
Proof.
  intros Hz. unfold str_of_Z.
  assert (Hd : exists d, Z.to_int z = Decimal.Pos d /\ d <> Decimal.Nil).
  { destruct z as [|p|p].
    - exists Decimal.zero. split; [reflexivity|discriminate].
    - exists (Pos.to_uint p). split; [reflexivity|apply Unsigned.to_uint_nonnil].
    - lia. }
  destruct Hd as [d [Ht Hn]]. rewrite Ht. cbn [NilZero.string_of_int].
  exists d. refine (conj (NilZero.usu d Hn) (conj _ (nilzero_no_dash d))).
  change (Z.of_uint d) with (Z.of_int (Decimal.Pos d)). rewrite <- Ht. apply DecimalZ.of_to.
Qed.

Lemma format_02d_nonneg n : (0 <= n)%Z ->
  exists d, NilZero.uint_of_string (format_02d n) = Some d /\ Z.of_uint d = n /\
            count_char "-" (format_02d n) = 0.
Proof.
  intros Hn. unfold format_02d.
  destruct (Z.ltb_spec n 0) as [H|_]; [lia|].
  destruct (Z.ltb_spec n 10) as [H|_]; [|exact (str_of_Z_nonneg n Hn)].
  assert (Hc : In n [0; 1; 2; 3; 4; 5; 6; 7; 8; 9]%Z) by (cbn; lia).
  cbn in Hc.
  repeat (destruct Hc as [<-|Hc]; [eexists; split; [reflexivity|split; reflexivity]|]).
  destruct Hc.
Qed.

Lemma split_on_no_sep sep a : count_char sep a = 0 -> split_on sep a = [a].
Proof.
  induction a as [|c a IH]; cbn [split_on count_char]; intros H; [reflexivity|].
  destruct (Ascii.eqb c sep); [lia|]. rewrite IH by lia. reflexivity.
Qed.

Lemma split_on_app sep a b : count_char sep a = 0 ->
  split_on sep (a ++ String sep b) = a :: split_on sep b.
Proof.
  induction a as [|c a IH]; cbn [split_on count_char append]; intros H.
  - rewrite Ascii.eqb_refl. reflexivity.
  - destruct (Ascii.eqb c sep); [lia|]. rewrite IH by lia. reflexivity.
Qed.

Lemma split_on_length sep s : length (split_on sep s) = S (count_char sep s).
Proof.
  induction s as [|c s IH]; cbn [split_on count_char]; [reflexivity|].
  destruct (Ascii.eqb c sep); cbn [length]; [rewrite IH; reflexivity|].
  destruct (split_on sep s) as [|w ws]; cbn [length] in *; lia.
Qed.

(** X3: with [BILLING_MONTH] unset or blank, the month [main] collects and
    the [next_month] it computes from it are the previous calendar month and
    the current one: for every date from year 1 on, [next_month] of
    [get_billing_month()] is [f"{now.year}-{now.month:02d}"], including the
    January case where the billing month is December of the year before.
    [int] is only assumed to read ASCII digit strings as decimal numbers. *)
Theorem next_month_of_auto_billing_month py_int (Hint : int_on_digits py_int) (y m : Z) :
  (1 <= y)%Z -> (1 <= m <= 12)%Z ->
  next_month py_int (get_billing_month "" y m) = Ok (str_of_Z y ++ "-" ++ format_02d m).
Proof.
  intros Hy Hm. unfold get_billing_month.
  change (truthy_str "") with false. cbv beta iota.
  unfold next_month.
  destruct (Z.eqb_spec m 1) as [->|Hm1].
  - destruct (str_of_Z_nonneg (y - 1)) as [dy [Hdy [Hvy Hcy]]]; [lia|].
    rewrite (split_on_app "-" _ "12" Hcy).
    change (split_on "-" "12") with ["12"]. cbv beta iota.
    rewrite (Hint "12" (Decimal.D1 (Decimal.D2 Decimal.Nil)) eq_refl). cbn [res_bind].
    change (Z.of_uint (Decimal.D1 (Decimal.D2 Decimal.Nil))) with 12%Z.
    cbv beta iota.
    rewrite (Hint _ _ Hdy), Hvy. cbn [res_bind].
    replace (y - 1 + 1)%Z with y by lia. reflexivity.
  - destruct (str_of_Z_nonneg y) as [dy [Hdy [Hvy Hcy]]]; [lia|].
    destruct (format_02d_nonneg (m - 1)) as [dm [Hdm [Hvm Hcm]]]; [lia|].
    change ("-" ++ format_02d (m - 1)) with (String "-" (format_02d (m - 1))).
    rewrite (split_on_app "-" _ _ Hcy), (split_on_no_sep "-" _ Hcm). cbv beta iota.
    rewrite (Hint _ _ Hdm), Hvm. cbn [res_bind].
    destruct (Z.ltb_spec (m - 1) 12); [|lia].
    replace (m - 1 + 1)%Z with m by lia. reflexivity.
Qed.

(** X4: [year, mon = billing_month.split("-")] raises unless the billing
    month contains exactly one ['-']; a [BILLING_MONTH] such as ["202609"]
    or ["2026-09-01"] makes [main] fail before any contract is fetched. *)
Theorem next_month_requires_one_dash py_int (b : string) :
  count_char "-" b <> 1 -> exists e, next_month py_int b = Raise e.
Proof.
  intros H. unfold next_month. pose proof (split_on_length "-"%char b) as HL.
  destruct (split_on "-" b) as [|x [|y [|z l]]]; cbn [length] in HL;
    [eexists; reflexivity|eexists; reflexivity|lia|eexists; reflexivity].
Qed.


End MonthsFacts.

(* ----------------------------------------------------------------- *)
(** ** AkamaiClient's base URL *)

Module ClientInitFacts.
Import ClientInit.
Local Open Scope string_scope.

Lemma rstrip_suffix ch s : exists rest,
  s = (rstrip ch s ++ rest)%string /\ forall c, In c (list_ascii_of_string rest) -> c = ch.
Proof.
  induction s as [|c s [rest [Hs Hr]]].
  - exists "". split; [reflexivity|intros c []].
  - cbn [rstrip]. destruct (rstrip ch s) as [|c' r] eqn:E.
    + destruct (Ascii.eqb_spec c ch) as [->|Hne].
      * exists (String ch rest). split; [cbn; rewrite Hs; reflexivity|].
        intros c0 [<-|Hc0]; [reflexivity|exact (Hr c0 Hc0)].
      * exists rest. split; [cbn; rewrite Hs; reflexivity|exact Hr].
    + exists rest. split; [cbn; rewrite Hs; reflexivity|exact Hr].
Qed.

Lemma rstrip_not_ends ch s : forall p, rstrip ch s <> (p ++ String ch "")%string.
Proof.
  induction s as [|c s IH]; intros p.
  - destruct p; discriminate.
  - cbn [rstrip]. destruct (rstrip ch s) as [|c' r] eqn:E.
    + destruct (Ascii.eqb_spec c ch) as [->|Hne].
      * destruct p; discriminate.
      * intros H. destruct p as [|c0 [|c1 p]]; cbn in H; injection H; intros;
          try discriminate; congruence.
    + intros H. destruct p as [|c0 p]; cbn in H; injection H; intros; [discriminate|].
      apply (IH p). try rewrite E. assumption.
Qed.

(** X6: [AkamaiClient(...)] raises [ValueError] exactly when [base_url] is
    empty.  Otherwise the stored [base_url] is the given one minus its
    trailing ['/'] characters and never ends in ['/'], so
    [f"{self.base_url}{path}"] joins it to a ['/']-led path with a single
    slash; a [base_url] made only of slashes passes the guard and is stored
    as [""]. *)
Theorem init_base_url_spec base_url :
  (base_url = "" -> exists e, init_base_url base_url = Raise e) /\
  (base_url <> "" -> exists stored rest,
     init_base_url base_url = Ok stored /\ base_url = (stored ++ rest)%string /\
     (forall c, In c (list_ascii_of_string rest) -> c = "/"%char) /\
     (forall p, stored <> (p ++ "/")%string)).
Proof.
  split.
  - intros ->. eexists. reflexivity.
  - intros Hne. destruct (rstrip_suffix "/"%char base_url) as [rest [Hs Hr]].
    exists (rstrip "/"%char base_url), rest.
    refine (conj _ (conj Hs (conj Hr (rstrip_not_ends "/"%char base_url)))).
    unfold init_base_url, truthy_str.
    destruct (String.eqb_spec base_url "") as [E|_]; [exfalso; exact (Hne E)|reflexivity].
Qed.

End ClientInitFacts.

(* ----------------------------------------------------------------- *)
(** ** Loops over JSON values *)

Module JsonFacts.
Import Json.

Lemma flat_map_res_app {A B} (f : A -> res (list B)) l1 l2 :
  flat_map_res f (l1 ++ l2) =
  (let* ys := flat_map_res f l1 in let* zs := flat_map_res f l2 in Ok (ys ++ zs)).
Proof.
  induction l1 as [|x l1 IH]; cbn [app flat_map_res res_bind].
  - destruct (flat_map_res f l2); reflexivity.
  - destruct (f x) as [a|e]; cbn [res_bind]; [|reflexivity].
    rewrite IH. destruct (flat_map_res f l1) as [b|e]; cbn [res_bind]; [|reflexivity].
    destruct (flat_map_res f l2); cbn [res_bind]; [rewrite app_assoc|]; reflexivity.
Qed.


Lemma flat_map_res_raise {A B} (f : A -> res (list B)) l x e :
  In x l -> f x = Raise e -> exists e', flat_map_res f l = Raise e'.
Proof.
  induction l as [|y l IH]; intros Hx Hf; [destruct Hx|].
  cbn [flat_map_res]. destruct Hx as [<-|Hx].
  - rewrite Hf. exists e. reflexivity.
  - destruct (f y) as [a|e']; cbn [res_bind]; [|exists e'; reflexivity].
    destruct (IH Hx Hf) as [e' ->]. exists e'. reflexivity.
Qed.

Lemma map_res_forall2 {A B} (f : A -> res B) l : forall ys,
  Billing.map_res f l = Ok ys -> Forall2 (fun x y => f x = Ok y) l ys.
Proof.
  induction l as [|x l IH]; intros ys H; cbn [Billing.map_res] in H.
  - injection H as <-. constructor.
  - destruct (f x) as [a|e] eqn:Ef; cbn [res_bind] in H; [|discriminate].
    destruct (Billing.map_res f l) as [b|e]; cbn [res_bind] in H; [|discriminate].
    injection H as <-. constructor; [exact Ef|exact (IH b eq_refl)].
Qed.



End JsonFacts.

(* ----------------------------------------------------------------- *)
(** ** The contract list *)

Module FetchFacts.
Import Json Fetch JsonFacts.
Local Open Scope string_scope.


(** X8: a contract whose ["enabled"] is falsy is skipped before any other
    field is read: removing it from ["data"] changes nothing, whatever its
    ["accounts"] hold. *)
Theorem disabled_contract_ignored r1 r2 pre post cfields :
  py_get r1 "data" (JArr []) = Ok (JArr (pre ++ JObj cfields :: post)) ->
  py_get r2 "data" (JArr []) = Ok (JArr (pre ++ post)) ->
  truthy (PyDict.get_default "enabled" cfields JNull) = false ->
  fetch_akamai_contracts r1 = fetch_akamai_contracts r2.
Proof.
  intros H1 H2 Hen. unfold fetch_akamai_contracts. rewrite H1, H2. cbn [res_bind py_iter].
  rewrite !flat_map_res_app. cbn [flat_map_res].
  assert (Hc : contract_entries (JObj cfields) = Ok []).
  { unfold contract_entries. cbn [py_get res_bind]. rewrite Hen. reflexivity. }
  rewrite Hc. cbn [res_bind].
  destruct (flat_map_res contract_entries pre); cbn [res_bind]; [|reflexivity].
  destruct (flat_map_res contract_entries post); reflexivity.
Qed.

(** X9: an enabled contract whose ["accounts"] is [null] makes
    [fetch_akamai_contracts] raise ([for account in None] is a
    [TypeError]), so one such contract fails the whole run of [main]. *)
Theorem enabled_contract_null_accounts_raises response items cfields :
  py_get response "data" (JArr []) = Ok (JArr items) ->
  In (JObj cfields) items ->
  truthy (PyDict.get_default "enabled" cfields JNull) = true ->
  PyDict.get_default "accounts" cfields (JArr []) = JNull ->
  exists e, fetch_akamai_contracts response = Raise e.
Proof.
  intros Hd Hin Hen Hacc. unfold fetch_akamai_contracts. rewrite Hd. cbn [res_bind py_iter].
  apply (flat_map_res_raise _ _ _ "'NoneType' object is not iterable" Hin).
  unfold contract_entries. cbn [py_get res_bind]. rewrite Hen. cbn [negb].
  rewrite Hacc. reflexivity.
Qed.

End FetchFacts.

(* ----------------------------------------------------------------- *)
(** ** Flattening *)

Module FlattenFacts.
Import Json Flatten JsonFacts.
Local Open Scope string_scope.

(** X10: [flatten_products] writes one row per reporting group of a
    product, and exactly one row, with [reporting_group_id] and
    [reporting_group_name] [None], for a product whose ["reportingGroups"]
    is absent or empty. *)
Theorem product_rows_count bm cid acc comp month start end_ rd product rows :
  product_rows bm cid acc comp month start end_ rd product = Ok rows ->
  length rows = Nat.max 1 (group_count product) /\
  (group_count product = 0 -> exists pid pname,
     rows = [mk_product_row bm cid acc comp pid pname JNull JNull month start end_ rd]).
Proof.
  unfold product_rows, group_count.
  destruct product as [| | | | |fields]; cbn [py_get res_bind]; try discriminate.
  destruct (truthy (PyDict.get_default "reportingGroups" fields (JArr []))) eqn:Et.
  - destruct (PyDict.get_default "reportingGroups" fields (JArr [])) as [|b|n|s|l|fs];
      cbn [py_iter res_bind]; try discriminate.
    + destruct s as [|c s]; [discriminate|].
      cbn [list_ascii_of_string map Billing.map_res py_get res_bind]. discriminate.
    + intros H. apply map_res_forall2 in H. apply Forall2_length in H.
      destruct l as [|x l]; [discriminate|].
      rewrite <- H. split; [cbn [length]; lia|cbn [length]; discriminate].
    + destruct fs as [|[k v] fs]; [discriminate|].
      cbn [map fst Billing.map_res py_get res_bind]. discriminate.
  - intros H. injection H as <-.
    assert (H0 : match PyDict.get_default "reportingGroups" fields (JArr []) with
                 | JArr rgs => length rgs | _ => 0 end = 0).
    { destruct (PyDict.get_default "reportingGroups" fields (JArr [])) as [| | | |l|];
        try reflexivity.
      destruct l; [reflexivity|discriminate]. }
    rewrite H0. split; [reflexivity|].
    intros _. eexists. eexists. reflexivity.
Qed.

(** X11: a record whose ["data"] object has no ["usagePeriods"] key gives
    no row in any of the three flatten functions.  In particular a product
    listing in the [{"products": [...]}] shape, which [extract_products]
    accepts, yields no product rows. *)
Theorem no_usage_periods_no_rows cid fields dfields bm :
  PyDict.get_default "data" fields (JObj []) = JObj dfields ->
  PyDict.get "usagePeriods" dfields = None ->
  flatten_products [(cid, JObj fields)] bm = Ok [] /\
  flatten_product_usage [(cid, JObj fields)] bm = Ok [] /\
  flatten_reporting_group_usage [(cid, JObj fields)] bm = Ok [].
Proof.
  intros Hd Hp.
  assert (Hg : PyDict.get_default "usagePeriods" dfields (JArr []) = JArr [])
    by (unfold PyDict.get_default; rewrite Hp; reflexivity).
  unfold flatten_products, flatten_product_usage, flatten_reporting_group_usage.
  cbn [map snd flat_map_res py_get res_bind]. rewrite Hd. cbn [py_get res_bind].
  rewrite Hg. cbn [py_iter res_bind flat_map_res].
  refine (conj eq_refl (conj eq_refl eq_refl)).
Qed.

(** X12: each flatten function maps a concatenation of dicts to the
    concatenation of their rows, and raises as soon as one part raises: the
    rows of a merged dict are those of its records in dict order. *)
Theorem flatten_app raw1 raw2 bm :
  flatten_products (raw1 ++ raw2) bm =
    (let* a := flatten_products raw1 bm in let* b := flatten_products raw2 bm in Ok (a ++ b)%list) /\
  flatten_product_usage (raw1 ++ raw2) bm =
    (let* a := flatten_product_usage raw1 bm in
     let* b := flatten_product_usage raw2 bm in Ok (a ++ b)%list) /\
  flatten_reporting_group_usage (raw1 ++ raw2) bm =
    (let* a := flatten_reporting_group_usage raw1 bm in
     let* b := flatten_reporting_group_usage raw2 bm in Ok (a ++ b)%list).
Proof.
  unfold flatten_products, flatten_product_usage, flatten_reporting_group_usage.
  rewrite map_app, !flat_map_res_app.
  refine (conj eq_refl (conj eq_refl eq_refl)).
Qed.

End FlattenFacts.

(* ----------------------------------------------------------------- *)
(** ** Collection: counts and the failure ledger *)

Module CollectExtras.
Import Akamai Billing.

(** Every failed result of [process_contract] carries an ["error"]. *)
Lemma process_contract_failure_reason cl limit u month next_month r :
  process_contract cl limit u month next_month = Ok r ->
  r_success r = false -> r_error r <> None.
Proof.
  unfold process_contract. intros H.
  destruct (acquire limit); cbn [res_bind] in H; [|discriminate].
  destruct (get_products cl (contract_id u) (account_id u) month next_month)
    as [[pdo err]|exc]; cbn [res_bind] in H; [|discriminate].
  destruct (truthy_id err) as [msg|].
  { injection H as <-. intros _. discriminate. }
  destruct pdo as [pd|].
  2:{ injection H as <-. intros _. discriminate. }
  destruct (negb (listing_truthy pd)).
  { injection H as <-. intros _. discriminate. }
  destruct (extract_products pd) as [|p ps].
  { injection H as <-. cbn. intros Hs. discriminate Hs. }
  destruct (product_loop cl limit u month (p :: ps) [] []) as [[pu rgu]|exc];
    cbn [res_bind] in H; [|discriminate].
  injection H as <-. cbn. intros Hs. discriminate Hs.
Qed.

(** A successful result of [process_contract] holds a non-empty listing. *)
Lemma process_contract_success_listed cl limit u month next_month r :
  process_contract cl limit u month next_month = Ok r ->
  r_success r = true -> exists pd, r_products r = Some pd /\ listing_truthy pd = true.
Proof.
  unfold process_contract. intros H.
  destruct (acquire limit); cbn [res_bind] in H; [|discriminate].
  destruct (get_products cl (contract_id u) (account_id u) month next_month)
    as [[pdo err]|exc]; cbn [res_bind] in H; [|discriminate].
  destruct (truthy_id err) as [msg|].
  { injection H as <-. cbn. intros Hs. discriminate Hs. }
  destruct pdo as [pd|].
  2:{ injection H as <-. cbn. intros Hs. discriminate Hs. }
  destruct (listing_truthy pd) eqn:Et; cbn [negb] in H.
  2:{ injection H as <-. cbn. intros Hs. discriminate Hs. }
  destruct (extract_products pd) as [|p ps].
  { injection H as <-. intros _. exists pd. split; [reflexivity|exact Et]. }
  destruct (product_loop cl limit u month (p :: ps) [] []) as [[pu rgu]|exc];
    cbn [res_bind] in H; [|discriminate].
  injection H as <-. intros _. exists pd. split; [reflexivity|exact Et].
Qed.

Lemma contrib_counted (o : contract * res unit_result) :
  success_contrib o + length (failure_contrib o) = 1.
Proof.
  destruct o as [c [r|e]]; unfold success_contrib, failure_contrib; cbn [snd];
    [destruct (r_success r)|]; reflexivity.
Qed.

Lemma counted_fold (outs : list (contract * res unit_result)) :
  list_sum (map success_contrib outs) + length (flat_map failure_contrib outs) = length outs.
Proof.
  induction outs as [|o outs IH]; [reflexivity|].
  cbn [map flat_map]. rewrite length_app.
  change (list_sum (success_contrib o :: map success_contrib outs))
    with (success_contrib o + list_sum (map success_contrib outs)).
  pose proof (contrib_counted o). cbn [length]. lia.
Qed.

Lemma length_flat_map_sum {A B} (f : A -> list B) l :
  length (flat_map f l) = list_sum (map (fun x => length (f x)) l).
Proof.
  induction l as [|x l IH]; [reflexivity|]. cbn [flat_map map].
  rewrite length_app, IH. reflexivity.
Qed.

Lemma products_contrib_length cl limit month next_month c :
  let o := (c, process_contract cl limit c month next_month) in
  length (PyDict.keys (products_contrib o)) = success_contrib o.
Proof.
  cbv zeta. unfold products_contrib, success_contrib. cbn [snd].
  destruct (process_contract cl limit c month next_month) as [r|e] eqn:E; [|reflexivity].
  destruct (r_success r) eqn:Hs; [|reflexivity].
  destruct (process_contract_success_listed _ _ _ _ _ _ E Hs) as [pd [-> ->]].
  reflexivity.
Qed.

(** X13: [collect_all] accounts for every Unit exactly once: the success
    count plus the number of failure entries is the number of contracts,
    whatever the completion order. *)
Theorem collect_counts_every_unit cl contracts month next_month ag :
  collect_all cl contracts month next_month ag ->
  success_count ag + length (failed ag) = length contracts.
Proof.
  intros [completion [Hperm ->]]. unfold collect_in_order.
  destruct (CollectFacts.collect_fold_fields
              (map (fun c => (c, process_contract cl RATE_LIMIT_PER_MINUTE c month next_month))
                   completion) empty_aggregate) as [_ [_ [_ [HS HF]]]].
  rewrite HS, HF. cbn [success_count failed empty_aggregate app].
  rewrite Nat.add_0_l, counted_fold, length_map. symmetry. exact (Permutation_length Hperm).
Qed.

(** X14: every entry of the failure ledger names a Unit of the run (its
    contract id and company name) and has a reason: an ["error"] of the
    result, or the exception's text; ["reason"] is never [None]. *)
Theorem collect_failures_explained cl contracts month next_month ag :
  collect_all cl contracts month next_month ag ->
  forall f, In f (failed ag) ->
    f_reason f <> None /\
    exists c, In c contracts /\ f_contract_id f = contract_id c /\
              f_company_name f = company_name c.
Proof.
  intros [completion [Hperm ->]] f Hf. unfold collect_in_order in Hf.
  destruct (CollectFacts.collect_fold_fields
              (map (fun c => (c, process_contract cl RATE_LIMIT_PER_MINUTE c month next_month))
                   completion) empty_aggregate) as [_ [_ [_ [_ HF]]]].
  rewrite HF in Hf. cbn [failed empty_aggregate app] in Hf.
  apply in_flat_map in Hf as [o [Ho Hf]]. apply in_map_iff in Ho as [c [<- Hc]].
  apply (Permutation_in _ (Permutation_sym Hperm)) in Hc.
  unfold failure_contrib in Hf.
  destruct (process_contract cl RATE_LIMIT_PER_MINUTE c month next_month) as [r|e] eqn:E.
  - destruct (CollectFacts.process_contract_owned _ _ _ _ _ _ E) as [Hid [_ [Hname _]]].
    destruct (r_success r) eqn:Hs; [destruct Hf|].
    destruct Hf as [<-|[]]. cbn [f_reason f_contract_id f_company_name].
    split; [exact (process_contract_failure_reason _ _ _ _ _ _ E Hs)|].
    exists c. exact (conj Hc (conj Hid Hname)).
  - destruct Hf as [<-|[]]. cbn [f_reason f_contract_id f_company_name].
    split; [discriminate|]. exists c. exact (conj Hc (conj eq_refl eq_refl)).
Qed.

(** X15: with distinct contract ids, the [products] dict of [collect_all]
    has exactly [success_count] entries, one per successful Unit (a
    successful Unit always has a non-empty listing). *)
Theorem collect_products_one_per_success cl contracts month next_month ag :
  NoDup (map contract_id contracts) ->
  collect_all cl contracts month next_month ag ->
  length (all_products ag) = success_count ag.
Proof.
  intros Hnd [completion [Hperm ->]]. unfold collect_in_order.
  set (outs := map (fun c => (c, process_contract cl RATE_LIMIT_PER_MINUTE c month next_month))
                   completion).
  destruct (CollectFacts.collect_fold_fields outs empty_aggregate) as [HP [_ [_ [HS _]]]].
  rewrite HP, HS. cbn [all_products success_count empty_aggregate].
  assert (Hnd' : NoDup (map contract_id completion)).
  { eapply Permutation_NoDup; [apply Permutation_map; exact Hperm|exact Hnd]. }
  assert (Hkeys : NoDup (flat_map (fun o => PyDict.keys (products_contrib o)) outs)).
  { unfold outs. rewrite CollectFacts.flat_map_map_comp.
    apply (CollectFacts.nodup_flat_map_owned (fun a k => k = a)); [exact Hnd'| | |].
    - intros c _. exact (proj1 (proj2 (proj2
        (CollectFacts.contrib_owned cl RATE_LIMIT_PER_MINUTE month next_month c)))).
    - intros c k _ Hk. exact (proj2 (proj2 (proj2
        (CollectFacts.contrib_owned cl RATE_LIMIT_PER_MINUTE month next_month c))) k Hk).
    - intros c1 c2 k _ _ -> ->. reflexivity. }
  rewrite <- (length_map fst).
  change (map fst (fold_left (fun d o => PyDict.update d (products_contrib o)) outs []))
    with (PyDict.keys (fold_left (fun d o => PyDict.update d (products_contrib o)) outs [])).
  rewrite (PyDictFacts.merge_keys products_contrib outs [] Hkeys).
  cbn [PyDict.keys map app]. rewrite length_flat_map_sum.
  unfold outs. rewrite !map_map, Nat.add_0_l. f_equal. apply map_ext. intros c.
  exact (products_contrib_length cl RATE_LIMIT_PER_MINUTE month next_month c).
Qed.

End CollectExtras.

(* ----------------------------------------------------------------- *)
(** ** Concrete runs against the collection claims *)

Module CollectRuns.
Import Akamai Billing Scenarios.
Local Open Scope string_scope.

(** C2 counterexample: a Unit whose listing is [{"products": []}] is
    counted a success (with the note [NO_PRODUCT_IN_USE]) and is not in the
    failure ledger. *)
Lemma empty_listing_marked_successful :
  get_products empty_products_client "1-A" "acct-1-A" billing_month next_billing_month =
    Ok (Some (products_listing []), None) /\
  extract_products (products_listing []) = [] /\
  process_contract empty_products_client RATE_LIMIT_PER_MINUTE (unit_of "1-A")
    billing_month next_billing_month =
    Ok (mk_result "1-A" "acct-1-A" "Company 1-A" true (Some (products_listing [])) [] []
          (Some NO_PRODUCT_IN_USE)) /\
  let ag := collect_in_order empty_products_client billing_month next_billing_month
              [unit_of "1-A"] in
  success_count ag = 1 /\ failed ag = [].
Proof. cbv zeta. repeat split. Qed.

(** C3 counterexample: product [P1] listed in two usage periods is queried
    twice, both queries succeed, and the Unit keeps one record. *)
Lemma repeated_product_overwrites :
  exists r,
    process_contract two_periods_client RATE_LIMIT_PER_MINUTE (unit_of "1-A")
      billing_month next_billing_month = Ok r /\
    r_success r = true /\
    length (flat_map (pu_leaf two_periods_client (unit_of "1-A") billing_month)
              (extract_products two_periods_listing)) = 2 /\
    length (r_product_usage r) = 1.
Proof. eexists. split; [reflexivity|]. repeat split. Qed.

(** C7 counterexample: Units ["A_B"] and ["A"] have distinct ids, yet
    product ["C"] of the first and product ["B_C"] of the second are both
    keyed ["A_B_C"]; four records merge into three keys. *)
Lemma cross_unit_key_collision :
  contract_id (unit_of "A_B") <> contract_id (unit_of "A") /\
  (exists r1 r2,
     process_contract collision_client RATE_LIMIT_PER_MINUTE (unit_of "A_B")
       billing_month next_billing_month = Ok r1 /\
     process_contract collision_client RATE_LIMIT_PER_MINUTE (unit_of "A")
       billing_month next_billing_month = Ok r2 /\
     PyDict.keys (r_product_usage r1) = ["A_B_C"; "A_B_D"] /\
     PyDict.keys (r_product_usage r2) = ["A_B_C"; "A_E"]) /\
  PyDict.keys (all_product_usage
    (collect_in_order collision_client billing_month next_billing_month
       [unit_of "A_B"; unit_of "A"])) = ["A_B_C"; "A_B_D"; "A_E"].
Proof.
  split; [discriminate|]. split; [|reflexivity].
  eexists. eexists. split; [reflexivity|]. split; [reflexivity|]. split; reflexivity.
Qed.

(** C8 counterexample: ten Units with distinct ids, two products each, every
    call answered with data; the merged usage dict has 19 keys. *)
Lemma ten_units_nineteen_keys :
  let ag := collect_in_order collision_client billing_month next_billing_month
              ten_units_with_collision in
  length ten_units_with_collision = 10 /\
  NoDup (map contract_id ten_units_with_collision) /\
  (forall u, In u ten_units_with_collision ->
     length (extract_products (match fst (collision_listing (contract_id u)) with
                               | Some pd => pd | None => products_listing [] end)) = 2) /\
  success_count ag = 10 /\ failed ag = [] /\
  length (PyDict.keys (all_product_usage ag)) = 19.
Proof.
  cbv zeta. split; [reflexivity|]. split; [solve_nodup|]. split.
  - intros u Hu. cbn in Hu.
    repeat (destruct Hu as [<-|Hu]; [reflexivity|]). destruct Hu.
  - vm_compute. repeat split.
Qed.

(** C9 counterexample: with the colliding Units of C7, the two completion
    orders leave different records under ["A_B_C"]. *)
Lemma collision_depends_on_order :
  exists ag1 ag2,
    collect_all collision_client [unit_of "A_B"; unit_of "A"]
      billing_month next_billing_month ag1 /\
    collect_all collision_client [unit_of "A_B"; unit_of "A"]
      billing_month next_billing_month ag2 /\
    PyDict.get "A_B_C" (all_product_usage ag1) <> PyDict.get "A_B_C" (all_product_usage ag2).
Proof.
  exists (collect_in_order collision_client billing_month next_billing_month
            [unit_of "A_B"; unit_of "A"]),
         (collect_in_order collision_client billing_month next_billing_month
            [unit_of "A"; unit_of "A_B"]).
  split; [exists [unit_of "A_B"; unit_of "A"]; split; [apply Permutation_refl|reflexivity]|].
  split; [exists [unit_of "A"; unit_of "A_B"]; split; [apply perm_swap|reflexivity]|].
  vm_compute. discriminate.
Qed.

End CollectRuns.

(* ----------------------------------------------------------------- *)
(** ** Instances of the theorems on concrete inputs *)

Module Witnesses.
Import Akamai Billing Scenarios.
Local Open Scope string_scope.

Lemma acquire_window_bound_witness :
  (0 < 3)%Z /\ RateLimiter.nondecreasing [0; 10; 20; 30; 65]%Z = true /\
  (forall a, (Z.of_nat (length (filter (RateLimiter.in_window a)
      (fst (RateLimiter.run (RateLimiter.init 3) [] [0; 10; 20; 30; 65]%Z)))) <= 3)%Z).
Proof.
  split; [reflexivity|]. split; [reflexivity|].
  exact (proj1 (RateLimiterFacts.acquire_window_bound 3 [0; 10; 20; 30; 65]%Z
                  eq_refl eq_refl)).
Defined.

Lemma acquire_nonpositive_never_admits_witness :
  (0 <= 0)%Z /\
  RateLimiter.run (RateLimiter.init 0) [] [0; 30; 90]%Z = ([], RateLimiter.init 0).
Proof.
  split; [discriminate|].
  exact (proj1 (RateLimiterFacts.acquire_nonpositive_never_admits 0 [0; 30; 90]%Z
                  ltac:(discriminate))).
Defined.

Lemma select_samples_spec_witness :
  [0; 1; 2; 3; 4; 5; 6; 7; 8; 9; 10; 11] <> [] /\
  (forall i, i < 5 -> i * 2 < 12).
Proof.
  split; [discriminate|].
  exact (proj1 (ProbeFacts.select_samples_spec [0; 1; 2; 3; 4; 5; 6; 7; 8; 9; 10; 11]
                  ltac:(discriminate))).
Defined.

(** The example of the spec: three SubUnits, the second one's usage query
    fails; the Unit succeeds with two records. *)
Lemma partial_leaf_tolerance_witness :
  exists r,
    process_contract second_fails_client RATE_LIMIT_PER_MINUTE (unit_of "1-B")
      billing_month next_billing_month = Ok r /\
    r_success r = true /\ length (r_product_usage r) = 2.
Proof.
  assert (Hleaf : leaf_calls_return second_fails_client (unit_of "1-B") billing_month).
  { split; intros; eexists; reflexivity. }
  destruct (CollectFacts.partial_leaf_tolerance second_fails_client (unit_of "1-B")
              billing_month next_billing_month three_products_listing None
              eq_refl eq_refl eq_refl ltac:(discriminate) Hleaf)
    as [r [Hr [Hs [_ [Hpu _]]]]].
  exists r. split; [exact Hr|]. split; [exact Hs|]. rewrite Hpu. reflexivity.
Defined.

Lemma composite_keys_partitioned_witness :
  NoDup (map contract_id pair_units) /\
  (forall c, In c pair_units -> no_underscore (contract_id c) = true) /\
  PyDict.keys (all_product_usage
    (collect_in_order two_products_client billing_month next_billing_month pair_units)) =
  ["1-A_P1"; "1-A_P2"; "1-B_P1"; "1-B_P2"].
Proof.
  assert (H1 : NoDup (map contract_id pair_units)) by solve_nodup.
  assert (H2 : forall c, In c pair_units -> no_underscore (contract_id c) = true).
  { intros c Hc. cbn in Hc. repeat (destruct Hc as [<-|Hc]; [reflexivity|]). destruct Hc. }
  refine (conj H1 (conj H2 _)).
  destruct (CollectFacts.composite_keys_partitioned two_products_client billing_month
              next_billing_month pair_units H1 H2) as [_ [_ [_ [_ [Hk _]]]]].
  rewrite Hk. reflexivity.
Defined.

Lemma ten_units_twenty_keys_witness :
  let ag := collect_in_order two_products_client billing_month next_billing_month ten_units in
  success_count ag = 10 /\ length (PyDict.keys (all_product_usage ag)) = 20 /\ failed ag = [].
Proof.
  apply (CollectFacts.ten_units_twenty_keys two_products_client ten_units
           billing_month next_billing_month).
  - reflexivity.
  - solve_nodup.
  - intros u Hu. cbn in Hu. repeat (destruct Hu as [<-|Hu]; [reflexivity|]). destruct Hu.
  - intros u _.
    exists (products_listing [plain_product "P1"; plain_product "P2"]), None,
           (plain_product "P1"), (plain_product "P2"), "P1", "P2".
    repeat split; discriminate.
  - intros u pid _. exists complete_usage, None. split; reflexivity.
  - intros u rg_id pid _. eexists. reflexivity.
  - exists ten_units. split; [apply Permutation_refl|reflexivity].
Defined.

Lemma collect_order_independent_witness :
  PyDict.get "1-B_P2" (all_product_usage
    (collect_in_order two_products_client billing_month next_billing_month pair_units)) =
  PyDict.get "1-B_P2" (all_product_usage
    (collect_in_order two_products_client billing_month next_billing_month (rev pair_units))).
Proof.
  assert (H1 : NoDup (map contract_id pair_units)) by solve_nodup.
  assert (H2 : forall c, In c pair_units -> no_underscore (contract_id c) = true).
  { intros c Hc. cbn in Hc. repeat (destruct Hc as [<-|Hc]; [reflexivity|]). destruct Hc. }
  exact (proj1 (proj2 (CollectFacts.collect_order_independent two_products_client pair_units
    billing_month next_billing_month _ _ H1 H2
    (ex_intro _ pair_units (conj (Permutation_refl _) eq_refl))
    (ex_intro _ (rev pair_units) (conj (Permutation_rev _) eq_refl)))) "1-B_P2").
Defined.

End Witnesses.

(* ================================================================= *)
(** ** Concrete runs of the further properties *)

Module ExtraWitnesses.
Import Json Fetch Flatten Months ClientInit Akamai Billing Scenarios ExtraScenarios.
Local Open Scope string_scope.

Lemma int_of_ascii_digits_on_digits : int_on_digits int_of_ascii_digits.
Proof. intros s d H. unfold int_of_ascii_digits. rewrite H. reflexivity. Qed.

Lemma collect_pair_units (cl : client) :
  collect_all cl pair_units billing_month next_billing_month
    (collect_in_order cl billing_month next_billing_month pair_units).
Proof. exists pair_units. split; [apply Permutation_refl|reflexivity]. Qed.

(** A window of one request at [0], asked again at [10]: sleep [50]. *)
Lemma sleep_time_positive_witness :
  RateLimiter.attempt (RateLimiter.mk 1 [0%Z]) 10 =
    (RateLimiter.Sleep 50, RateLimiter.mk 1 [0%Z]) /\
  (0 < 50)%Z /\ ((forall x, In x [0%Z] -> x <= 10) -> 50 <= 60)%Z.
Proof.
  split; [reflexivity|].
  exact (RateLimiterExtras.sleep_time_positive (RateLimiter.mk 1 [0%Z]) 10 50
           (RateLimiter.mk 1 [0%Z]) eq_refl).
Defined.

Lemma retry_after_sleep_acquires_witness :
  RateLimiter.attempt (RateLimiter.mk 1 [0%Z]) 10 =
    (RateLimiter.Sleep 50, RateLimiter.mk 1 [0%Z]) /\
  (Z.of_nat (length [0%Z]) <= 1)%Z /\ (10 + 50 <= 60)%Z /\
  fst (RateLimiter.attempt (RateLimiter.mk 1 [0%Z]) 60) = RateLimiter.Acquired.
Proof.
  refine (conj eq_refl (conj _ (conj _ _))); [cbn; lia|lia|].
  exact (RateLimiterExtras.retry_after_sleep_acquires (RateLimiter.mk 1 [0%Z]) 10 50
           (RateLimiter.mk 1 [0%Z]) 60 eq_refl ltac:(cbn; lia) ltac:(lia)).
Defined.

(** January 2026: the billing month is ["2025-12"], its next month
    ["2026-01"]. *)
Lemma next_month_of_auto_billing_month_witness :
  int_on_digits int_of_ascii_digits /\ (1 <= 2026)%Z /\ (1 <= 1 <= 12)%Z /\
  next_month int_of_ascii_digits (get_billing_month "" 2026 1) =
    Ok (str_of_Z 2026 ++ "-" ++ format_02d 1).
Proof.
  refine (conj int_of_ascii_digits_on_digits (conj _ (conj _ _))); [lia|lia|].
  exact (MonthsFacts.next_month_of_auto_billing_month int_of_ascii_digits
           int_of_ascii_digits_on_digits 2026 1 ltac:(lia) ltac:(lia)).
Defined.

Lemma next_month_requires_one_dash_witness :
  count_char "-" "2026-09-01" <> 1 /\
  exists e, next_month int_of_ascii_digits "2026-09-01" = Raise e.
Proof.
  split; [cbn; discriminate|].
  exact (MonthsFacts.next_month_requires_one_dash int_of_ascii_digits "2026-09-01"
           ltac:(cbn; discriminate)).
Defined.



Lemma disabled_contract_ignored_witness :
  py_get (contracts_response [JObj enabled_contract; JObj disabled_contract]) "data" (JArr []) =
    Ok (JArr ([JObj enabled_contract] ++ JObj disabled_contract :: [])%list) /\
  py_get (contracts_response [JObj enabled_contract]) "data" (JArr []) =
    Ok (JArr ([JObj enabled_contract] ++ [])%list) /\
  truthy (PyDict.get_default "enabled" disabled_contract JNull) = false /\
  fetch_akamai_contracts (contracts_response [JObj enabled_contract; JObj disabled_contract]) =
  fetch_akamai_contracts (contracts_response [JObj enabled_contract]).
Proof.
  refine (conj eq_refl (conj eq_refl (conj eq_refl _))).
  exact (FetchFacts.disabled_contract_ignored
           (contracts_response [JObj enabled_contract; JObj disabled_contract])
           (contracts_response [JObj enabled_contract]) [JObj enabled_contract] [] disabled_contract
           eq_refl eq_refl eq_refl).
Defined.

Lemma enabled_contract_null_accounts_raises_witness :
  py_get (contracts_response [JObj enabled_contract; JObj null_accounts_contract]) "data" (JArr []) =
    Ok (JArr [JObj enabled_contract; JObj null_accounts_contract]) /\
  In (JObj null_accounts_contract) [JObj enabled_contract; JObj null_accounts_contract] /\
  truthy (PyDict.get_default "enabled" null_accounts_contract JNull) = true /\
  PyDict.get_default "accounts" null_accounts_contract (JArr []) = JNull /\
  exists e, fetch_akamai_contracts
              (contracts_response [JObj enabled_contract; JObj null_accounts_contract]) = Raise e.
Proof.
  refine (conj eq_refl (conj (or_intror (or_introl eq_refl)) (conj eq_refl (conj eq_refl _)))).
  exact (FetchFacts.enabled_contract_null_accounts_raises
           (contracts_response [JObj enabled_contract; JObj null_accounts_contract])
           [JObj enabled_contract; JObj null_accounts_contract] null_accounts_contract
           eq_refl (or_intror (or_introl eq_refl)) eq_refl eq_refl).
Defined.

Lemma product_rows_count_witness :
  exists rows,
    product_rows "2026-09" "1-A" (JStr "acc-1") (JStr "Company A") (JStr "2026-09")
      JNull JNull JNull grouped_product = Ok rows /\
    length rows = 2.
Proof.
  eexists. split; [reflexivity|].
  exact (proj1 (FlattenFacts.product_rows_count "2026-09" "1-A" (JStr "acc-1")
                  (JStr "Company A") (JStr "2026-09") JNull JNull JNull grouped_product _
                  eq_refl)).
Defined.

Lemma no_usage_periods_no_rows_witness :
  PyDict.get_default "data" products_shaped_record (JObj []) =
    JObj [("products", JArr [JObj [("productId", JStr "P2")]])] /\
  PyDict.get "usagePeriods" [("products", JArr [JObj [("productId", JStr "P2")]])] = None /\
  flatten_products [("1-A", JObj products_shaped_record)] "2026-09" = Ok [].
Proof.
  refine (conj eq_refl (conj eq_refl _)).
  exact (proj1 (FlattenFacts.no_usage_periods_no_rows "1-A" products_shaped_record _ "2026-09"
                  eq_refl eq_refl)).
Defined.

(** Two Units, the second failing its listing call. *)
Lemma collect_counts_every_unit_witness :
  collect_all one_failing_client pair_units billing_month next_billing_month
    (collect_in_order one_failing_client billing_month next_billing_month pair_units) /\
  success_count (collect_in_order one_failing_client billing_month next_billing_month pair_units)
  + length (failed (collect_in_order one_failing_client billing_month next_billing_month
                      pair_units)) = 2.
Proof.
  split; [exact (collect_pair_units one_failing_client)|].
  exact (CollectExtras.collect_counts_every_unit one_failing_client pair_units
           billing_month next_billing_month _ (collect_pair_units one_failing_client)).
Defined.

Lemma collect_failures_explained_witness :
  collect_all one_failing_client pair_units billing_month next_billing_month
    (collect_in_order one_failing_client billing_month next_billing_month pair_units) /\
  forall f, In f (failed (collect_in_order one_failing_client billing_month next_billing_month
                            pair_units)) -> f_reason f <> None.
Proof.
  split; [exact (collect_pair_units one_failing_client)|].
  intros f Hf.
  exact (proj1 (CollectExtras.collect_failures_explained one_failing_client pair_units
                  billing_month next_billing_month _ (collect_pair_units one_failing_client) f Hf)).
Defined.

Lemma collect_products_one_per_success_witness :
  NoDup (map contract_id pair_units) /\
  collect_all one_failing_client pair_units billing_month next_billing_month
    (collect_in_order one_failing_client billing_month next_billing_month pair_units) /\
  length (all_products (collect_in_order one_failing_client billing_month next_billing_month
                          pair_units)) = 1.
Proof.
  assert (H1 : NoDup (map contract_id pair_units)) by solve_nodup.
  refine (conj H1 (conj (collect_pair_units one_failing_client) _)).
  exact (CollectExtras.collect_products_one_per_success one_failing_client pair_units
           billing_month next_billing_month _ H1 (collect_pair_units one_failing_client)).
Defined.

End ExtraWitnesses.
